(** * Pardo feed-to-image generator: feed normalisation and canvas layout

    A shallow embedding of [src/index.tsx]: the helper [getXmlUrl], the body
    of [fetchClusterData] (transport fallback, HTML guard, element lookup,
    field mapping, price cleaning, filtering) and the body of [drawProduct]
    (the sequence of canvas calls).

    Conventions.
    - A JavaScript string is represented by its UTF-8 encoding, a [string]
      of bytes.  The patterns the program searches for, splits at or
      compares with are ASCII, and an ASCII byte never occurs inside the
      encoding of another character, so these operations agree on bytes
      and on characters; [trim] knows the encodings of the Unicode blanks.
    - A JavaScript number is [NaN] or an exact rational ([jsnum]), an
      integer valued one [NaN] or an exact integer ([jsint]).  The values
      agree with the binary64 values of the program for whole numbers up
      to 2^53; beyond that the program rounds.  Statements that depend on
      the exact value carry that bound; comparisons with 0 do not depend
      on it.
    - The browser services the code calls ([fetch], [DOMParser],
      [encodeURIComponent], [Math.random], [Intl.NumberFormat], image
      loading) are parameters of the sections below. *)

From Stdlib Require Import String Ascii List ZArith QArith Qreduction Qminmax Lia Bool.
From Stdlib Require Import DecimalString.
Import ListNotations.

Set Warnings "-register-all".

Local Open Scope string_scope.
Local Open Scope Z_scope.

(** ** JavaScript values *)

Module JS.

(** A number: [NaN] or a finite exact value. *)
Inductive jsnum : Type :=
  | NaN : jsnum
  | Num : Q -> jsnum.

(** An integer valued number, as produced by [parseInt]. *)
Inductive jsint : Type :=
  | INaN : jsint
  | Int : Z -> jsint.

(** [a > b]: false as soon as one side is [NaN]. *)
Definition gt (a b : jsnum) : bool :=
  match a, b with
  | Num x, Num y => negb (Qle_bool x y)
  | _, _ => false
  end.

(** [a <= b] and [a >= b], again false on [NaN]. *)
Definition le (a b : jsnum) : bool :=
  match a, b with
  | Num x, Num y => Qle_bool x y
  | _, _ => false
  end.

Definition ge (a b : jsnum) : bool := le b a.

Definition igt (a : jsint) (b : Z) : bool :=
  match a with Int x => b <? x | INaN => false end.

Definition ige (a : jsint) (b : Z) : bool :=
  match a with Int x => b <=? x | INaN => false end.

Definition ofZ (z : Z) : jsnum := Num (inject_Z z).

(** [price / installments]; the divisor is only ever an integer above 1. *)
Definition div (a : jsnum) (b : jsint) : jsnum :=
  match a, b with
  | Num x, Int z => if z =? 0 then NaN else Num (Qred (x / inject_Z z))
  | _, _ => NaN
  end.

(** [n.toString()] and [`${n}`] for an integer valued number: all its
    decimal digits.  This is what the program prints for whole numbers
    below 10^21; from there on it switches to exponent notation, which is
    not modelled. *)
Definition itoString (n : jsint) : string :=
  match n with
  | INaN => "NaN"
  | Int z => NilZero.string_of_int (Z.to_int z)
  end.

(** Truthiness of a string: non-empty. *)
Definition truthy (s : string) : bool :=
  match s with EmptyString => false | String _ _ => true end.

(** [a || b] on strings. *)
Definition or_else (a b : string) : string := if truthy a then a else b.

End JS.

Import JS.

(** ** String primitives *)

Module Str.

Definition is_digit (c : ascii) : bool :=
  let n := nat_of_ascii c in (48 <=? n)%nat && (n <=? 57)%nat.

Definition digit_val (c : ascii) : Z := Z.of_nat (nat_of_ascii c) - 48.

Definition code (c : ascii) : nat := nat_of_ascii c.

(** The one-byte blanks: TAB, LF, VT, FF, CR, SP. *)
Definition is_space (c : ascii) : bool :=
  ((9 <=? code c)%nat && (code c <=? 13)%nat) || (code c =? 32)%nat.

(** The two-byte blank: U+00A0, encoded C2 A0. *)
Definition blank2 (a b : ascii) : bool :=
  (code a =? 194)%nat && (code b =? 160)%nat.

(** The three-byte blanks: U+1680 (E1 9A 80), U+2000 to U+200A (E2 80 80
    to 8A), U+2028, U+2029 (E2 80 A8, A9), U+202F (E2 80 AF), U+205F
    (E2 81 9F), U+3000 (E3 80 80) and U+FEFF (EF BB BF). *)
Definition blank3 (a b c : ascii) : bool :=
  ((code a =? 225) && (code b =? 154) && (code c =? 128))%nat
  || ((code a =? 226) && (code b =? 128)
      && (((128 <=? code c) && (code c <=? 138))
          || (code c =? 168) || (code c =? 169) || (code c =? 175)))%nat
  || ((code a =? 226) && (code b =? 129) && (code c =? 159))%nat
  || ((code a =? 227) && (code b =? 128) && (code c =? 128))%nat
  || ((code a =? 239) && (code b =? 187) && (code c =? 191))%nat.

(** Removes the white space and line terminators that start [s]. *)
Fixpoint trimStart (s : string) : string :=
  match s with
  | String a r1 =>
      if is_space a then trimStart r1
      else
        match r1 with
        | String b r2 =>
            if blank2 a b then trimStart r2
            else
              match r2 with
              | String c r3 => if blank3 a b c then trimStart r3 else s
              | EmptyString => s
              end
        | EmptyString => s
        end
  | EmptyString => EmptyString
  end.

(** [s] consists of blanks only. *)
Definition allBlank (s : string) : bool := negb (truthy (trimStart s)).

(** Removes the blanks that end [s]: the text is cut at the first place
    from which only blanks follow. *)
Fixpoint trimEnd (s : string) : string :=
  match s with
  | EmptyString => EmptyString
  | String c r => if allBlank s then EmptyString else String c (trimEnd r)
  end.

Definition trim (s : string) : string := trimEnd (trimStart s).

(** Number of bytes of the blank that starts [s], 0 when there is none. *)
Definition blankLen (s : string) : nat :=
  match s with
  | String a r1 =>
      if is_space a then 1
      else
        match r1 with
        | String b r2 =>
            if blank2 a b then 2
            else
              match r2 with
              | String c _ => if blank3 a b c then 3 else 0
              | EmptyString => 0
              end
        | EmptyString => 0
        end
  | EmptyString => 0
  end%nat.

Fixpoint drop (n : nat) (s : string) : string :=
  match n, s with
  | S n', String _ r => drop n' r
  | _, _ => s
  end.

(** Bytes that can be part of a blank. *)
Definition blankByte (c : ascii) : bool := is_space c || (128 <=? code c)%nat.

(** Lower-casing of the ASCII letters.  The program lower-cases the whole
    text; only a comparison with an ASCII prefix is made on the result, and
    no other character is lower-cased into a character of that prefix. *)
Definition lower (c : ascii) : ascii :=
  let n := nat_of_ascii c in
  if (65 <=? n)%nat && (n <=? 90)%nat then ascii_of_nat (n + 32) else c.

Fixpoint toLowerCase (s : string) : string :=
  match s with
  | EmptyString => EmptyString
  | String c r => String (lower c) (toLowerCase r)
  end.

Definition startsWith (s p : string) : bool := String.prefix p s.

Fixpoint includes (s p : string) : bool :=
  String.prefix p s ||
  match s with
  | EmptyString => false
  | String _ r => includes r p
  end.

Fixpoint filter (f : ascii -> bool) (s : string) : string :=
  match s with
  | EmptyString => EmptyString
  | String c r => if f c then String c (filter f r) else filter f r
  end.

Fixpoint forallb (f : ascii -> bool) (s : string) : bool :=
  match s with
  | EmptyString => true
  | String c r => f c && forallb f r
  end.

(** [s.replace(a, b)] with a one-character string pattern: only the first
    occurrence is replaced. *)
Fixpoint replaceFirst (a b : ascii) (s : string) : string :=
  match s with
  | EmptyString => EmptyString
  | String c r => if Ascii.eqb c a then String b r else String c (replaceFirst a b r)
  end.

(** [s.split(sep)[0]]: the text before the first separator. *)
Fixpoint beforeFirst (sep : ascii) (s : string) : string :=
  match s with
  | EmptyString => EmptyString
  | String c r => if Ascii.eqb c sep then EmptyString else String c (beforeFirst sep r)
  end.

(** The longest prefix made of digits, and what follows it. *)
Fixpoint spanDigits (s : string) : string * string :=
  match s with
  | String c r =>
      if is_digit c then let (d, rest) := spanDigits r in (String c d, rest)
      else (EmptyString, s)
  | EmptyString => (EmptyString, EmptyString)
  end.

(** Value of a digit string read in base ten, continuing from [acc]. *)
Fixpoint digitsValue (acc : Z) (s : string) : Z :=
  match s with
  | EmptyString => acc
  | String c r => digitsValue (10 * acc + digit_val c) r
  end.

(** [s.match(/(\d+)/)]: the first run of digits, if any. *)
Fixpoint firstDigitRun (s : string) : option string :=
  match s with
  | EmptyString => None
  | String c r => if is_digit c then Some (fst (spanDigits s)) else firstDigitRun r
  end.

(** [/^\d+$/.test(s)]. *)
Definition allDigits (s : string) : bool := truthy s && forallb is_digit s.

End Str.

(** ** Number parsing *)

(** [parseInt(s, 10)]: leading white space, an optional sign, then the
    longest run of digits; [NaN] without a digit.  The value is the exact
    integer the digits spell, which is the program's for runs spelling at
    most 2^53 (beyond that the program rounds, and reaches Infinity). *)
Definition parseInt (s : string) : jsint :=
  let t := Str.trimStart s in
  let '(neg, body) :=
    match t with
    | String "-" r => (true, r)
    | String "+" r => (false, r)
    | _ => (false, t)
    end in
  match fst (Str.spanDigits body) with
  | EmptyString => INaN
  | ds => let v := Str.digitsValue 0 ds in Int (if neg then - v else v)
  end.

(** [parseFloat] on text made of digits, points and commas only (what price
    cleaning leaves, see [clean_alphabet]): the longest prefix of the form
    digits, digits.digits*, or .digits; [NaN] when there is none.  Signs,
    exponents, white space and Infinity cannot occur in such text.  The
    value is the exact decimal, of which the program takes the nearest
    binary64 number: the same number for whole values up to 2^53, and in
    every case a number on the same side of 0. *)
Definition parseFloat (s : string) : jsnum :=
  let (ip, r1) := Str.spanDigits s in
  match r1 with
  | String "." r2 =>
      let fp := fst (Str.spanDigits r2) in
      if negb (truthy ip) && negb (truthy fp) then NaN
      else Num (Qred (Str.digitsValue 0 (ip ++ fp) # Z.to_pos (10 ^ Z.of_nat (String.length fp))))
  | _ => if truthy ip then Num (inject_Z (Str.digitsValue 0 ip)) else NaN
  end.

(** The character class kept by [/[^\d.,]/g]. *)
Definition priceChar (c : ascii) : bool :=
  Str.is_digit c || Ascii.eqb c "." || Ascii.eqb c ",".

(** [p.replace(/[^\d.,]/g, '').replace(',', '.')]. *)
Definition clean (p : string) : string :=
  Str.replaceFirst "," "." (Str.filter priceChar p).

(** [parsePrice], the closure defined inside the mapping callback. *)
Definition parsePrice (p : string) : jsnum :=
  if negb (truthy p) then Num 0
  else parseFloat (clean p).

(** ** The parsed feed document *)

Module Dom.

(** A DOM node: character data, or an element with its qualified name and
    child nodes.  Attributes, comments and processing instructions take no
    part in [getElementsByTagName] or [textContent]. *)
Inductive node : Type :=
  | Text : string -> node
  | Element : string -> list node -> node.

Definition tagName (n : node) : string :=
  match n with Text _ => "" | Element t _ => t end.

Definition isElement (n : node) : bool :=
  match n with Text _ => false | Element _ _ => true end.

(** Concatenated character data of a node and its descendants. *)
Fixpoint textContent (n : node) : string :=
  match n with
  | Text s => s
  | Element _ cs => String.concat "" (map textContent cs)
  end.

(** Element descendants in document order (the node itself excluded). *)
Fixpoint descendants (n : node) : list node :=
  match n with
  | Text _ => []
  | Element _ cs =>
      flat_map (fun c => if isElement c then c :: descendants c else []) cs
  end.

(** [n.getElementsByTagName(t)]: descendants whose qualified name is [t]. *)
Definition getElementsByTagName (n : node) (t : string) : list node :=
  List.filter (fun e => String.eqb (tagName e) t) (descendants n).

(** [n.getElementsByTagName(t)[0]]. *)
Definition firstByTagName (n : node) (t : string) : option node :=
  hd_error (getElementsByTagName n t).

End Dom.

Import Dom.

(** ** Canonical product *)

Record Product : Type := mkProduct {
  id : string;
  name : string;
  price : jsnum;
  listPrice : jsnum;
  imageUrl : string;
  installments : jsint;
  freeShipping : bool;
  sku : string;
  bankPromo : option string;
  pickup : option bool
}.

Definition sinNombre : string := "Sin Nombre".

(** ** Mapping one product element *)

Section Mapping.

(** [encodeURIComponent]. *)
Variable encodeURIComponent : string -> string.

(** The [k]-th value of [Math.random().toString(36)] drawn while mapping
    the feed. *)
Variable randomId : nat -> string.

(** One candidate element of [getText]: [el && el.textContent]. *)
Definition textOf (item : node) (t : string) : option string :=
  match firstByTagName item t with
  | Some el => if truthy (textContent el) then Some (Str.trim (textContent el)) else None
  | None => None
  end.

(** [getText(tags)]: for each name the plain, [g:] and [ns:] elements are
    tried; the first one with text content decides, trimmed. *)
Fixpoint getText (item : node) (tags : list string) : string :=
  match tags with
  | [] => ""
  | t :: rest =>
      match textOf item t with
      | Some s => s
      | None =>
          match textOf item ("g:" ++ t) with
          | Some s => s
          | None =>
              match textOf item ("ns:" ++ t) with
              | Some s => s
              | None => getText item rest
              end
          end
      end
  end.

(** [node.getElementsByTagName(t)[0]?.textContent], with [undefined]
    and the empty string both falsy. *)
Definition optText (n : node) (t : string) : string :=
  match firstByTagName n t with
  | Some el => textContent el
  | None => ""
  end.

(** The installment count: nested [installment/months] first, the flat
    text field otherwise, 1 by default. *)
Definition installmentsOf (item : node) : jsint :=
  let installmentNode :=
    match firstByTagName item "g:installment" with
    | Some n => Some n
    | None => firstByTagName item "installment"
    end in
  match installmentNode with
  | Some n =>
      let months := or_else (optText n "g:months") (optText n "months") in
      if truthy months then parseInt months else Int 1
  | None =>
      let instText := getText item ["installment"; "installments"] in
      if truthy instText then
        match Str.firstDigitRun instText with
        | Some m => parseInt m
        | None => Int 1
        end
      else Int 1
  end.

(** The text handed to [parseInt] by the installment logic, when there
    is one. *)
Definition installmentText (item : node) : option string :=
  let installmentNode :=
    match firstByTagName item "g:installment" with
    | Some n => Some n
    | None => firstByTagName item "installment"
    end in
  match installmentNode with
  | Some n =>
      let months := or_else (optText n "g:months") (optText n "months") in
      if truthy months then Some months else None
  | None =>
      let instText := getText item ["installment"; "installments"] in
      if truthy instText then Str.firstDigitRun instText else None
  end.

Definition rawPriceOf (item : node) : string := getText item ["price"; "g:price"].
Definition rawSalePriceOf (item : node) : string :=
  getText item ["sale_price"; "g:sale_price"].
Definition idOf (item : node) : string := getText item ["id"; "sku"; "g:id"].
Definition titleOf (item : node) : string := getText item ["title"; "name"].

(** [rawSalePrice ? parsePrice(rawSalePrice) : parsePrice(rawPrice)]. *)
Definition priceOf (item : node) : jsnum :=
  if truthy (rawSalePriceOf item) then parsePrice (rawSalePriceOf item)
  else parsePrice (rawPriceOf item).

(** [rawSalePrice && rawPrice ? parsePrice(rawPrice) : 0]. *)
Definition listPriceOf (item : node) : jsnum :=
  if truthy (rawSalePriceOf item) && truthy (rawPriceOf item)
  then parsePrice (rawPriceOf item) else Num 0.

Definition imageOf (item : node) : string :=
  let rawImage := getText item ["image_link"; "g:image_link"] in
  let cleanImage := Str.beforeFirst "?" rawImage in
  if truthy cleanImage
  then "https://wsrv.nl/?url=" ++ encodeURIComponent cleanImage ++ "&output=jpg&w=1000&h=1000"
  else "".

(** The callback of [items.map]; [k] counts the random identifiers drawn
    so far and is advanced when this element needs one. *)
Definition mapProduct (item : node) (k : nat) : Product * nat :=
  let id0 := idOf item in
  let p := priceOf item in
  ( {| id := if truthy id0 then id0 else randomId k;
       name := or_else (titleOf item) sinNombre;
       price := p;
       listPrice := listPriceOf item;
       imageUrl := imageOf item;
       installments := installmentsOf item;
       freeShipping := gt p (ofZ 100000);
       sku := or_else id0 "N/A";
       bankPromo := Some "";
       pickup := Some true |},
    if truthy id0 then k else S k ).

Fixpoint mapProducts (items : list node) (k : nat) : list Product :=
  match items with
  | [] => []
  | item :: rest =>
      let (p, k') := mapProduct item k in p :: mapProducts rest k'
  end.

(** The predicate of [mappedProducts.filter]. *)
Definition keep (p : Product) : bool :=
  gt (price p) (Num 0) || negb (String.eqb (name p) sinNombre).

(** The records the filter removes. *)
Definition dropped (p : Product) : bool :=
  negb (gt (price p) (Num 0)) && String.eqb (name p) sinNombre.

(** The element is usable: the product mapped from it passes the filter
    (price and name do not depend on the identifier counter). *)
Definition validElement (item : node) : bool := keep (fst (mapProduct item 0)).

End Mapping.

(** ** Acquisition and normalisation: [fetchClusterData] *)

Module Fetch.

(** What [json.contents] can be once the envelope is decoded. *)
Inductive jsval : Type :=
  | VString : string -> jsval
  | VFalsy : jsval      (* undefined, null, 0, false *)
  | VTruthy : jsval.    (* any other non-string value *)

Definition vtruthy (v : jsval) : bool :=
  match v with
  | VString s => truthy s
  | VFalsy => false
  | VTruthy => true
  end.

(** A settled response: its [ok] flag, its body read as text, and the
    [contents] field of its body read as JSON ([None] when [res.json()]
    rejects or the decoded value has no properties). *)
Record response : Type := mkResponse {
  ok : bool;
  text : string;
  contents : option jsval
}.

(** Outcome of [await fetch(url)]: a rejection with its error, or a
    response. *)
Inductive fetched : Type :=
  | Rejected : string -> fetched
  | Resolved : response -> fetched.

Record strategy : Type := mkStrategy {
  sname : string;
  url : string;
  isWrapped : bool
}.

(** Values thrown inside [fetchClusterData]. *)
Inductive exn : Type :=
  | Error : string -> exn
  | TypeError : exn.

Inductive result (A : Type) : Type :=
  | Ok : A -> result A
  | Throw : exn -> result A.

Arguments Ok {A} _.
Arguments Throw {A} _.

Definition bind {A B : Type} (r : result A) (f : A -> result B) : result B :=
  match r with
  | Ok a => f a
  | Throw e => Throw e
  end.

Notation "x <- r ;; k" := (bind r (fun x => k))
  (at level 61, r at next level, right associativity).

(** Local variables of the strategy loop, with the console log of the
    strategies attempted. *)
Record loopState : Type := mkLoop {
  xmlText : jsval;
  lastError : option string;
  successSource : string;
  attempted : list string
}.

(** The React state written by [fetchClusterData]. *)
Record appState : Type := mkApp {
  products : list Product;
  selectedProduct : option Product;
  errorMsg : option string;
  tried : list string
}.

Definition msgNoXml : string :=
  "No se pudo obtener el XML. Verifique la URL o intente más tarde.".

Definition msgHtml (source : string) : string :=
  "El proxy (" ++ source ++
  ") devolvió una página HTML en vez de XML. Puede que la URL esté bloqueada o sea inválida.".

Definition msgParse : string :=
  "Error al procesar el formato XML. El archivo podría estar corrupto.".

Definition msgNoProducts : string :=
  "El XML no contiene productos (se buscaron etiquetas <item>, <entry>, <product>).".

Definition msgNoValid : string :=
  "Se encontraron items pero no se pudo extraer información válida (precios/nombres).".

(** [getXmlUrl]: a bare cluster number is expanded, anything else is used
    as it is. *)
Definition getXmlUrl (input : string) : string :=
  let trimmed := Str.trim input in
  if Str.allDigits trimmed
  then "https://www.pardo.com.ar/XMLData/cluster" ++ trimmed ++ ".xml"
  else trimmed.

(** The guard on proxy HTML pages. *)
Definition isHtml (xml : string) : bool :=
  Str.startsWith (Str.toLowerCase (Str.trim xml)) "<!doctype html"
  || Str.includes xml "<html".

Section Pipeline.

Variable encodeURIComponent : string -> string.
Variable randomId : nat -> string.

(** The network: what [fetch] settles to for a request URL. *)
Variable fetch : string -> fetched.

(** [new DOMParser().parseFromString(text, "text/xml")]: the Document
    node, parent of the root element (of a [parsererror] element when
    the text is malformed). *)
Variable parseFromString : string -> node.

Definition strategies (targetUrl : string) : list strategy :=
  [ {| sname := "AllOrigins Raw";
       url := "https://api.allorigins.win/raw?url=" ++ encodeURIComponent targetUrl;
       isWrapped := false |};
    {| sname := "CORSProxy";
       url := "https://corsproxy.io/?" ++ encodeURIComponent targetUrl;
       isWrapped := false |};
    {| sname := "AllOrigins Wrapped";
       url := "https://api.allorigins.win/get?url=" ++ encodeURIComponent targetUrl;
       isWrapped := true |} ].

(** One pass through the body of the [for] loop, once the [break] test
    has let it run. *)
Definition attempt (st : loopState) (strat : strategy) : loopState :=
  let log := (attempted st ++ [sname strat])%list in
  match fetch (url strat) with
  | Rejected e =>
      {| xmlText := xmlText st; lastError := Some e;
         successSource := successSource st; attempted := log |}
  | Resolved res =>
      if ok res then
        if isWrapped strat then
          match contents res with
          | Some v =>
              {| xmlText := v; lastError := lastError st;
                 successSource := sname strat; attempted := log |}
          | None =>
              {| xmlText := xmlText st; lastError := Some "SyntaxError";
                 successSource := successSource st; attempted := log |}
          end
        else
          {| xmlText := VString (text res); lastError := lastError st;
             successSource := sname strat; attempted := log |}
      else
        {| xmlText := xmlText st; lastError := lastError st;
           successSource := successSource st; attempted := log |}
  end.

(** The [for (const strat of strategies)] loop; [if (xmlText) break]
    leaves the remaining strategies untouched. *)
Fixpoint tryStrategies (st : loopState) (l : list strategy) : loopState :=
  match l with
  | [] => st
  | strat :: rest =>
      if vtruthy (xmlText st) then st
      else tryStrategies (attempt st strat) rest
  end.

Definition initLoop : loopState :=
  {| xmlText := VFalsy; lastError := None; successSource := ""; attempted := [] |}.

(** [if (!xmlText) throw ...] followed by the HTML guard; a truthy body
    that is not a string has no [trim] method. *)
Definition checkText (st : loopState) : result string :=
  if negb (vtruthy (xmlText st)) then Throw (Error msgNoXml)
  else
    match xmlText st with
    | VString xml =>
        if isHtml xml then Throw (Error (msgHtml (successSource st)))
        else Ok xml
    | _ => Throw TypeError
    end.

(** The three element names, tried in order. *)
Definition findItems (xmlDoc : node) : list node :=
  let items := getElementsByTagName xmlDoc "item" in
  let items :=
    match items with [] => getElementsByTagName xmlDoc "entry" | _ => items end in
  match items with [] => getElementsByTagName xmlDoc "product" | _ => items end.

Definition mappedProducts (items : list node) : list Product :=
  mapProducts encodeURIComponent randomId items 0.

Definition validProducts (items : list node) : list Product :=
  List.filter keep (mappedProducts items).

(** From the parsed document to the product list. *)
Definition normalizeDoc (xmlDoc : node) : result (list Product) :=
  match getElementsByTagName xmlDoc "parsererror" with
  | _ :: _ => Throw (Error msgParse)
  | [] =>
      match findItems xmlDoc with
      | [] => Throw (Error msgNoProducts)
      | items =>
          match validProducts items with
          | [] => Throw (Error msgNoValid)
          | ps => Ok ps
          end
      end
  end.

Definition normalize (xmlText : string) : result (list Product) :=
  normalizeDoc (parseFromString xmlText).

(** The body of the outer [try]. *)
Definition load (targetUrl : string) : loopState * result (list Product) :=
  let st := tryStrategies initLoop (strategies targetUrl) in
  (st, xml <- checkText st ;; normalize xml).

Definition messageOf (e : exn) : string :=
  match e with
  | Error m => or_else m "Error desconocido"
  | TypeError => "xmlText.trim is not a function"
  end.

(** [fetchClusterData], as the application state it leaves; [None] when
    the input is blank and the function returns at once. *)
Definition fetchClusterData (clusterInput : string) : option appState :=
  let targetUrl := getXmlUrl clusterInput in
  if negb (truthy targetUrl) then None
  else
    let (st, r) := load targetUrl in
    Some match r with
         | Ok ps =>
             {| products := ps; selectedProduct := hd_error ps;
                errorMsg := None; tried := attempted st |}
         | Throw e =>
             {| products := []; selectedProduct := None;
                errorMsg := Some (messageOf e); tried := attempted st |}
         end.

End Pipeline.

End Fetch.

(** ** Image composition: [drawProduct] *)

Module Canvas.

(** Calls made on the 2D context, in the order [drawProduct] makes them.
    A call to the helper [roundRect] is recorded as [RoundRect]; [roundRect]
    below gives the path it traces. *)
Inductive op : Type :=
  | SetSize : Z -> Z -> op
  | FillStyle : string -> op
  | Font : string -> op
  | TextAlign : string -> op
  | TextBaseline : string -> op
  | FillRect : Z -> Z -> Z -> Z -> op
  | FillText : string -> Z -> Z -> op
  | DrawImage : Q -> Q -> Q -> Q -> op
  | RoundRect : Z -> Z -> Z -> Z -> Z -> op
  | BeginPath : op
  | MoveTo : Z -> Z -> op
  | LineTo : Z -> Z -> op
  | QuadraticCurveTo : Z -> Z -> Z -> Z -> op
  | ClosePath : op
  | Fill : op
  | Download : string -> op.

(** The helper [roundRect(ctx, x, y, w, h, r)]. *)
Definition roundRect (x y w h r : Z) : list op :=
  [ BeginPath;
    MoveTo (x + r) y;
    LineTo (x + w - r) y;
    QuadraticCurveTo (x + w) y (x + w) (y + r);
    LineTo (x + w) (y + h - r);
    QuadraticCurveTo (x + w) (y + h) (x + w - r) (y + h);
    LineTo (x + r) (y + h);
    QuadraticCurveTo x (y + h) x (y + h - r);
    LineTo x (y + r);
    QuadraticCurveTo x y (x + r) y;
    ClosePath ].

(** Inlines the helper calls of a trace. *)
Definition expand (t : list op) : list op :=
  flat_map (fun o => match o with
                     | RoundRect x y w h r => roundRect x y w h r
                     | _ => [o]
                     end) t.

Module COLORS.
Definition pardoBlue : string := "#0033A0".
Definition orangeBadge : string := "#FF6600".
Definition debitBadge : string := "#0055FF".
Definition pickupBadge : string := "#B3D4FC".
Definition priceColor : string := "#FF6600".
Definition frameText : string := "#FFFF00".
End COLORS.

(** The configuration state read by [drawProduct]. *)
Record RenderConfig : Type := mkConfig {
  frameColor : string;
  showPrice : bool;
  showBadges : bool;
  customBankText : string
}.

(** Outcome of loading the product photo: its pixel size (positive for a
    decoded image), or a failure. *)
Inductive imageLoad : Type :=
  | Loaded : Z -> Z -> imageLoad
  | LoadFailed : imageLoad.

Definition WIDTH : Z := 1000.
Definition HEIGHT : Z := 1000.
Definition frameTop : Z := 130.
Definition frameBottom : Z := 130.
Definition safeAreaTop : Z := frameTop.
Definition safeAreaHeight : Z := HEIGHT - frameTop - frameBottom.

Section Draw.

(** [formatPrice]: [Intl.NumberFormat('es-AR', ...)]. *)
Variable formatPrice : jsnum -> string.

Variable cfg : RenderConfig.

(** 1. Background. *)
Definition background : list op :=
  [ SetSize WIDTH HEIGHT; FillStyle "#FFFFFF"; FillRect 0 0 WIDTH HEIGHT ].

(** 2. Product image, or the placeholder of the [catch] branch. *)
Definition productImage (img : imageLoad) : list op :=
  match img with
  | Loaded iw ih =>
      let padding := 20 in
      let maxImgH := safeAreaHeight - 140 in
      let maxImgW := WIDTH - padding * 2 in
      let scale := Qmin (inject_Z maxImgW / inject_Z iw) (inject_Z maxImgH / inject_Z ih) in
      let drawW := (inject_Z iw * scale)%Q in
      let drawH := (inject_Z ih * scale)%Q in
      let x := ((inject_Z WIDTH - drawW) / 2)%Q in
      let y := inject_Z (safeAreaTop + 40) in
      [ DrawImage x y drawW drawH ]
  | LoadFailed =>
      [ FillStyle "#f5f5f5"; FillRect 100 safeAreaTop 800 safeAreaHeight;
        FillStyle "#ccc"; Font "30px Roboto"; TextAlign "center";
        FillText "Sin Imagen" 500 500 ]
  end.

(** [product.bankPromo || customBankText]. *)
Definition promoTextOf (product : Product) : string :=
  match bankPromo product with
  | Some s => or_else s (customBankText cfg)
  | None => customBankText cfg
  end.

(** Bank / promo badge (left): the calls and the new [leftBadgeY]. *)
Definition bankBadge (promoText : string) (leftBadgeY : Z) : list op * Z :=
  if truthy promoText then
    ( [ FillStyle COLORS.debitBadge;
        RoundRect 30 leftBadgeY 280 80 10; Fill;
        FillStyle "white"; Font "900 36px Roboto"; TextAlign "center";
        FillText "10% OFF" (30 + 140) (leftBadgeY + 40);
        Font "400 18px Roboto";
        FillText "1 PAGO Débito" (30 + 140) (leftBadgeY + 65) ],
      leftBadgeY + 90 )
  else ([], leftBadgeY).

(** Installments badge (right): the calls and the new [rightBadgeY]. *)
Definition installmentsBadge (product : Product) (rightBadgeY : Z) : list op * Z :=
  if igt (installments product) 1 then
    let badgeW := 260 in
    let badgeH := 70 in
    let badgeX := WIDTH - badgeW - 30 in
    ( [ FillStyle COLORS.orangeBadge;
        RoundRect badgeX rightBadgeY badgeW badgeH 10; Fill;
        FillStyle "white"; Font "900 50px Roboto"; TextAlign "left";
        TextBaseline "middle";
        FillText (itoString (installments product)) (badgeX + 15)
                 (rightBadgeY + badgeH / 2 + 2);
        Font "700 20px Roboto";
        FillText "SIN" (badgeX + 80) (rightBadgeY + 25);
        FillText "INTERÉS" (badgeX + 80) (rightBadgeY + 48) ],
      rightBadgeY + 80 )
  else ([], rightBadgeY).

(** Free pickup badge (right, below installments). *)
Definition pickupBadge (product : Product) (rightBadgeY : Z) : list op :=
  match pickup product with
  | Some true =>
      let badgeW := 260 in
      let badgeH := 40 in
      let badgeX := WIDTH - badgeW - 30 in
      [ FillStyle COLORS.pickupBadge;
        RoundRect badgeX rightBadgeY badgeW badgeH 20; Fill;
        FillStyle "#004488"; Font "700 20px Roboto"; TextAlign "center";
        TextBaseline "middle";
        FillText "¡RETIRO GRATIS!" (badgeX + badgeW / 2) (rightBadgeY + badgeH / 2 + 2) ]
  | _ => []
  end.

(** 3. Badges. *)
Definition badges (product : Product) : list op :=
  if showBadges cfg then
    let badgeY := safeAreaTop + 20 in
    let (bank, _) := bankBadge (promoTextOf product) badgeY in
    let (inst, rightBadgeY) := installmentsBadge product badgeY in
    (bank ++ inst ++ pickupBadge product rightBadgeY)%list
  else [].

(** 4. Price, with the installment breakdown above it. *)
Definition priceBlock (product : Product) : list op :=
  if showPrice cfg then
    let priceY := HEIGHT - frameBottom - 30 in
    ([ FillStyle COLORS.priceColor; Font "900 110px Roboto"; TextAlign "center";
       TextBaseline "bottom";
       FillText (formatPrice (price product)) (WIDTH / 2) priceY ]
     ++
     if igt (installments product) 1 then
       let installmentVal := div (price product) (installments product) in
       let instText :=
         ("Hasta " ++ itoString (installments product) ++ "x "
          ++ formatPrice installmentVal ++ " cuotas sin interés")%string in
       [ FillStyle COLORS.orangeBadge; Font "700 32px Roboto";
         TextBaseline "bottom";
         FillText instText (WIDTH / 2) (priceY - 110) ]
     else [])%list
  else [].

(** 5. Frame bars and brand text. *)
Definition frame : list op :=
  [ FillStyle (frameColor cfg);
    FillRect 0 0 WIDTH frameTop;
    FillRect 0 (HEIGHT - frameBottom) WIDTH frameBottom;
    FillRect 0 0 30 HEIGHT;
    FillRect (WIDTH - 30) 0 30 HEIGHT;
    FillStyle COLORS.frameText; Font "900 80px Roboto"; TextAlign "center";
    TextBaseline "middle";
    FillText "PARDO" (WIDTH / 2) (frameTop / 2);
    Font "700 30px Roboto";
    FillText "WWW.PARDO.COM.AR" (WIDTH / 2) (HEIGHT - frameBottom / 2) ].

(** The name given to the exported file. *)
Definition fileName (product : Product) : string :=
  "pardo_" ++ sku product ++ ".jpg".

(** 6. Download trigger. *)
Definition downloadTrigger (product : Product) (download : bool) : list op :=
  if download then [ Download (fileName product) ] else [].

(** [drawProduct(product, canvas, download)] on a canvas that has a 2D
    context, given how the photo load settles. *)
Definition drawProduct (product : Product) (img : imageLoad) (download : bool)
  : list op :=
  (background ++ productImage img ++ badges product ++ priceBlock product
   ++ frame ++ downloadTrigger product download)%list.

End Draw.

(** *** Observations on a trace *)

(** Top-left corners of the rounded rectangles of size [w] x [h]. *)
Definition roundRectsOf (w h : Z) (t : list op) : list (Z * Z) :=
  flat_map (fun o => match o with
                     | RoundRect x y w' h' _ =>
                         if (w' =? w) && (h' =? h) then [(x, y)] else []
                     | _ => []
                     end) t.

(** Every rounded rectangle as (x, y, w, h). *)
Definition roundRects (t : list op) : list (Z * Z * Z * Z) :=
  flat_map (fun o => match o with
                     | RoundRect x y w h _ => [(x, y, w, h)]
                     | _ => []
                     end) t.

(** The texts painted at the anchor point (x, y). *)
Definition textsAt (x y : Z) (t : list op) : list string :=
  flat_map (fun o => match o with
                     | FillText s x' y' =>
                         if (x' =? x) && (y' =? y) then [s] else []
                     | _ => []
                     end) t.

(** Every text painted, wherever it is. *)
Definition texts (t : list op) : list string :=
  flat_map (fun o => match o with FillText s _ _ => [s] | _ => [] end) t.

(** Two axis-aligned rectangles share interior points. *)
Definition overlap (a b : Z * Z * Z * Z) : bool :=
  let '(ax, ay, aw, ah) := a in
  let '(bx, by_, bw, bh) := b in
  (ax <? bx + bw) && (bx <? ax + aw) && (ay <? by_ + bh) && (by_ <? ay + ah).

Fixpoint pairwiseDisjoint (l : list (Z * Z * Z * Z)) : bool :=
  match l with
  | [] => true
  | a :: rest => List.forallb (fun b => negb (overlap a b)) rest && pairwiseDisjoint rest
  end.

End Canvas.

(** ** Sample inputs *)

Module Samples.

Definition el (t : string) (txt : string) : node := Element t [Text txt].

Definition feedOf (items : list node) : node :=
  Element "#document" [Element "rss" [Element "channel" items]].

(** A sale price of zero next to a list price. *)
Definition itemSaleZero : node :=
  Element "item" [el "title" "TV"; el "g:price" "100 ARS"; el "g:sale_price" "0 ARS"].

(** A list price and no sale price. *)
Definition itemListOnly : node :=
  Element "item"
    [el "title" "TV"; el "price" "6199999 ARS";
     Element "installment" [el "months" "12"]].

(** A price field without any digit, and no title. *)
Definition itemNoNumber : node :=
  Element "item" [el "price" "ARS"].

(** A titled product whose feed announces zero installments. *)
Definition itemZeroMonths : node :=
  Element "item"
    [el "title" "TV"; el "price" "100";
     Element "g:installment" [el "g:months" "0"]].

(** An Atom style feed. *)
Definition entryFeed : node :=
  Element "#document" [Element "feed" [Element "entry" [el "title" "TV"; el "id" "A1"]]].

Definition emptyFeed : node := feedOf [].

Definition enc (u : string) : string := u.
Definition rnd (k : nat) : string := "0." ++ itoString (Int (Z.of_nat k)).
Definition fmt (n : jsnum) : string := "$".

Definition htmlPage : string := "<!DOCTYPE html><html><body>403</body></html>".

Definition rawUrl : string := "https://api.allorigins.win/raw?url=http://shop/feed.xml".

Definition feedUrl : string := "http://shop/feed.xml".

Definition relays : list Fetch.strategy := Fetch.strategies enc feedUrl.

Definition relay1 : Fetch.strategy := nth 0 relays (Fetch.mkStrategy "" "" false).
Definition relay2 : Fetch.strategy := nth 1 relays (Fetch.mkStrategy "" "" false).
Definition relay3 : Fetch.strategy := nth 2 relays (Fetch.mkStrategy "" "" false).

Definition htmlResponse : Fetch.response :=
  {| Fetch.ok := true; Fetch.text := htmlPage; Fetch.contents := None |}.

(** A network where the first relay serves an HTML page and the others
    the feed. *)
Definition netHtmlFirst (u : string) : Fetch.fetched :=
  if String.eqb u rawUrl
  then Fetch.Resolved {| Fetch.ok := true; Fetch.text := htmlPage; Fetch.contents := None |}
  else Fetch.Resolved {| Fetch.ok := true; Fetch.text := "<rss/>";
                         Fetch.contents := Some (Fetch.VString "<rss/>") |}.

(** A network where the first relay is down and the second serves an
    HTML page. *)
Definition netHtmlSecond (u : string) : Fetch.fetched :=
  if String.eqb u rawUrl
  then Fetch.Rejected "Failed to fetch"
  else Fetch.Resolved {| Fetch.ok := true; Fetch.text := htmlPage; Fetch.contents := None |}.

Definition parseAny (xml : string) : node := feedOf [itemListOnly].

(** A product carrying its own promotion text. *)
Definition visaProduct : Product :=
  {| id := "p1"; name := "TV"; price := ofZ 1200; listPrice := Num 0;
     imageUrl := ""; installments := Int 12; freeShipping := false;
     sku := "p1"; bankPromo := Some "20% OFF VISA"; pickup := Some true |}.

Definition singleProduct : Product :=
  {| id := "p2"; name := "TV"; price := ofZ 1200; listPrice := Num 0;
     imageUrl := ""; installments := Int 1; freeShipping := false;
     sku := "p2"; bankPromo := Some ""; pickup := Some true |}.

Definition cfgAll : Canvas.RenderConfig :=
  {| Canvas.frameColor := Canvas.COLORS.pardoBlue; Canvas.showPrice := true;
     Canvas.showBadges := true; Canvas.customBankText := "10% OFF 1 PAGO Débito" |}.


End Samples.

(** ** Batch export: [runBatchProcess] *)

Module Batch.

(** What the batch does besides updating the state: timer waits, the
    canvas calls of one [drawProduct] run, the final alert. *)
Inductive event : Type :=
  | Sleep : Z -> event
  | Painted : list Canvas.op -> event
  | Alert : string -> event.

(** The React state the batch writes, with the log of its events. *)
Record batchState : Type := mkBatch {
  processing : bool;
  generatedCount : nat;
  selectedProduct : option Product;
  log : list event
}.

Section Run.

Variable formatPrice : jsnum -> string.
Variable cfg : Canvas.RenderConfig.

(** How the photo load of the [i]-th product of the run settles, given
    its URL. *)
Variable loadImage : nat -> string -> Canvas.imageLoad.

(** One iteration of the [for] loop. *)
Definition batchStep (st : batchState) (p : Product) : batchState :=
  {| processing := processing st;
     generatedCount := S (generatedCount st);
     selectedProduct := Some p;
     log := (log st ++
             [ Sleep 600;
               Painted (Canvas.drawProduct formatPrice cfg p
                          (loadImage (generatedCount st) (imageUrl p)) true);
               Sleep 500 ])%list |}.

(** [runBatchProcess]; [hasCanvas] is [canvasRef.current] being set.  The
    preview redraw scheduled by the effect hook on each selection is not
    part of this function. *)
Definition runBatchProcess (hasCanvas : bool) (products : list Product)
    (st : batchState) : batchState :=
  if negb hasCanvas then st
  else
    let st1 := {| processing := true; generatedCount := 0;
                  selectedProduct := selectedProduct st; log := log st |} in
    let st2 := fold_left batchStep products st1 in
    {| processing := false;
       generatedCount := generatedCount st2;
       selectedProduct := selectedProduct st2;
       log := (log st2 ++ [Alert "Proceso finalizado."])%list |}.

End Run.

(** File names handed to the download link by a list of canvas calls. *)
Definition downloads (t : list Canvas.op) : list string :=
  flat_map (fun o => match o with Canvas.Download f => [f] | _ => [] end) t.

(** File names exported during a run, in order. *)
Definition exported (l : list event) : list string :=
  flat_map (fun e => match e with Painted t => downloads t | _ => [] end) l.

(** Total time spent in timers. *)
Definition slept (l : list event) : Z :=
  fold_right (fun e acc => match e with Sleep ms => ms + acc | _ => acc end) 0 l.

Definition idle : batchState :=
  {| processing := false; generatedCount := 0; selectedProduct := None; log := [] |}.

End Batch.

(** ** Further observations *)

Module Obs.

(** The strategy hands a non-empty body to the loop: a successful
    response whose text (or whose [contents] field, for the wrapped relay)
    is truthy. *)
Definition yieldsBody (fetch : string -> Fetch.fetched) (s : Fetch.strategy) : bool :=
  match fetch (Fetch.url s) with
  | Fetch.Rejected _ => false
  | Fetch.Resolved res =>
      Fetch.ok res &&
      (if Fetch.isWrapped s
       then match Fetch.contents res with
            | Some v => Fetch.vtruthy v
            | None => false
            end
       else truthy (Fetch.text res))
  end.

(** End points and control points of a path call. *)
Definition pathPoints (o : Canvas.op) : list (Z * Z) :=
  match o with
  | Canvas.MoveTo x y => [(x, y)]
  | Canvas.LineTo x y => [(x, y)]
  | Canvas.QuadraticCurveTo cx cy x y => [(cx, cy); (x, y)]
  | _ => []
  end.

Definition inBox (x y w h : Z) (pt : Z * Z) : bool :=
  (x <=? fst pt) && (fst pt <=? x + w) && (y <=? snd pt) && (snd pt <=? y + h).

(** The rectangle lies between the side bars and between the top and
    bottom frame bars. *)
Definition insideSafeArea (r : Z * Z * Z * Z) : bool :=
  let '(x, y, w, h) := r in
  (30 <=? x) && (x + w <=? Canvas.WIDTH - 30)
  && (Canvas.safeAreaTop <=? y)
  && (y + h <=? Canvas.safeAreaTop + Canvas.safeAreaHeight).

(** The element carries no id/sku text. *)
Definition idless (item : node) : bool := negb (truthy (idOf item)).

Definition noDigit (c : ascii) : bool := negb (Str.is_digit c).
Definition noPriceChar (c : ascii) : bool := negb (priceChar c).

(** The text the effective price is parsed from: the sale price when it
    is there, the list price otherwise. *)
Definition priceText (item : node) : string :=
  if truthy (rawSalePriceOf item) then rawSalePriceOf item else rawPriceOf item.

Definition startsWithDigit (s : string) : bool :=
  match s with String c _ => Str.is_digit c | EmptyString => false end.

(** 2^53, up to which whole numbers are exact in binary64. *)
Definition maxExact : Z := 9007199254740992.

(** What a render leaves on the canvas besides plain rectangles and the
    photo: a rounded rectangle filled with the fill style in force, or a
    text painted with the fill style and the font in force. *)
Inductive mark : Type :=
  | Filled : string -> Z -> Z -> Z -> Z -> Z -> mark
  | Label : string -> string -> string -> Z -> Z -> mark.

(** Reads a trace of [drawProduct] with the state of the context: fill
    style, font, and the rounded rectangle the current path holds since the
    last call of the helper.  Setting the canvas size resets the context;
    [fill] paints the path, [fillText] paints a text and leaves the path
    alone. *)
Fixpoint marksFrom (style font : string) (path : option (Z * Z * Z * Z * Z))
    (t : list Canvas.op) : list mark :=
  match t with
  | [] => []
  | o :: rest =>
      match o with
      | Canvas.SetSize _ _ => marksFrom "#000000" "10px sans-serif" None rest
      | Canvas.FillStyle s => marksFrom s font path rest
      | Canvas.Font f => marksFrom style f path rest
      | Canvas.RoundRect x y w h r => marksFrom style font (Some (x, y, w, h, r)) rest
      | Canvas.Fill =>
          match path with
          | Some (x, y, w, h, r) => Filled style x y w h r :: marksFrom style font path rest
          | None => marksFrom style font path rest
          end
      | Canvas.FillText s x y => Label style font s x y :: marksFrom style font path rest
      | _ => marksFrom style font path rest
      end
  end.

Definition marks (t : list Canvas.op) : list mark :=
  marksFrom "#000000" "10px sans-serif" None t.

(** Fill style, corner and radius of the filled rounded rectangles of
    size [w] x [h]. *)
Definition filledOf (w h : Z) (ms : list mark) : list (string * Z * Z * Z) :=
  flat_map (fun m => match m with
                     | Filled style x y w' h' r =>
                         if (w' =? w) && (h' =? h) then [(style, x, y, r)] else []
                     | _ => []
                     end) ms.

(** Every filled rounded rectangle as (x, y, w, h). *)
Definition filledRects (ms : list mark) : list (Z * Z * Z * Z) :=
  flat_map (fun m => match m with
                     | Filled _ x y w h _ => [(x, y, w, h)]
                     | _ => []
                     end) ms.

(** Fill style, font and content of the texts painted at (x, y). *)
Definition labelsAt (x y : Z) (ms : list mark) : list (string * string * string) :=
  flat_map (fun m => match m with
                     | Label style font s x' y' =>
                         if (x' =? x) && (y' =? y) then [(style, font, s)] else []
                     | _ => []
                     end) ms.

End Obs.

(** ** More sample inputs *)

Module MoreSamples.

Import Samples.

(** An element whose installment element holds flat text, no months. *)
Definition itemFlatInstallment : node :=
  Element "item" [el "title" "TV"; el "price" "100"; el "installment" "12 cuotas"].

(** An element with the flat plural field only. *)
Definition itemInstallmentsField : node :=
  Element "item" [el "title" "TV"; el "price" "100"; el "installments" "hasta 6 cuotas"].

Definition itemNoId2 : node :=
  Element "item" [el "title" "Radio"; el "price" "50"].

Definition netDown (u : string) : Fetch.fetched := Fetch.Rejected "Failed to fetch".

(** The first relay is down, the second serves the feed. *)
Definition netSecondServes (u : string) : Fetch.fetched :=
  if String.eqb u rawUrl
  then Fetch.Rejected "Failed to fetch"
  else Fetch.Resolved {| Fetch.ok := true; Fetch.text := "<rss/>"; Fetch.contents := None |}.

Definition feedResponse : Fetch.response :=
  {| Fetch.ok := true; Fetch.text := "<rss/>"; Fetch.contents := None |}.

Definition loadNone (i : nat) (u : string) : Canvas.imageLoad := Canvas.LoadFailed.

(** An element without any recognised field. *)
Definition itemBare : node := Element "item" [el "description" "sin datos"].

(** A feed of three elements without id: a bare one and two products. *)
Definition idlessFeed : node := feedOf [itemBare; itemListOnly; itemNoId2].

(** The products a load of that feed keeps. *)
Definition idlessProducts : list Product :=
  Fetch.validProducts enc rnd (Fetch.findItems idlessFeed).

(** The state left when every relay is down. *)
Definition downState : Fetch.appState :=
  {| Fetch.products := []; Fetch.selectedProduct := None;
     Fetch.errorMsg := Some Fetch.msgNoXml;
     Fetch.tried := ["AllOrigins Raw"; "CORSProxy"; "AllOrigins Wrapped"] |}.

(** The state left when the second relay serves the feed. *)
Definition servedState : Fetch.appState :=
  match Fetch.fetchClusterData enc rnd netSecondServes parseAny feedUrl with
  | Some st => st
  | None => downState
  end.

(** The same product as [singleProduct] under another name, id, list
    price, shipping flag and image. *)
Definition singleProductRelabelled : Product :=
  {| id := "other"; name := "Radio"; price := ofZ 1200; listPrice := ofZ 1500;
     imageUrl := "http://img/x.jpg"; installments := Int 1; freeShipping := true;
     sku := "p2"; bankPromo := Some ""; pickup := Some true |}.

End MoreSamples.

(** * Properties *)

(** ** Price cleaning *)

Lemma filter_forallb (f : ascii -> bool) (s : string) :
  Str.forallb f (Str.filter f s) = true.
Proof.
  induction s as [|c r IH]; simpl; [reflexivity|].
  destruct (f c) eqn:E; simpl; [rewrite E|]; exact IH.
Qed.

(** After cleaning only digits, points and commas remain, so the text
    handed to [parseFloat] carries no sign, exponent or white space. *)
Lemma clean_alphabet (p : string) : Str.forallb priceChar (clean p) = true.
Proof.
  unfold clean.
  generalize (filter_forallb priceChar p).
  generalize (Str.filter priceChar p) as s.
  induction s as [|c r IH]; simpl; [reflexivity|].
  intros H. apply andb_prop in H as [Hc Hr].
  destruct (Ascii.eqb c ",") eqn:E; simpl.
  - now rewrite Hr.
  - now rewrite Hc, IH.
Qed.

Lemma spanDigits_digits (s : string) :
  Str.forallb Str.is_digit (fst (Str.spanDigits s)) = true.
Proof.
  induction s as [|c r IH]; simpl; [reflexivity|].
  destruct (Str.is_digit c) eqn:E; [|reflexivity].
  destruct (Str.spanDigits r) as [d rest]; simpl in *. now rewrite E.
Qed.

Lemma forallb_app (f : ascii -> bool) (a b : string) :
  Str.forallb f a = true -> Str.forallb f b = true ->
  Str.forallb f (a ++ b) = true.
Proof.
  induction a as [|c r IH]; simpl; [auto|].
  intros H Hb. apply andb_prop in H as [Hc Hr]. now rewrite Hc, IH.
Qed.

Lemma digit_val_nonneg (c : ascii) : Str.is_digit c = true -> 0 <= Str.digit_val c.
Proof.
  unfold Str.is_digit, Str.digit_val. intros H.
  apply andb_prop in H as [H _]. apply Nat.leb_le in H. lia.
Qed.

Lemma digitsValue_nonneg (s : string) :
  forall acc, 0 <= acc -> Str.forallb Str.is_digit s = true ->
              0 <= Str.digitsValue acc s.
Proof.
  induction s as [|c r IH]; cbn [Str.digitsValue Str.forallb];
    intros acc Hacc H; [exact Hacc|].
  apply andb_prop in H as [Hc Hr]. apply IH; [|exact Hr].
  pose proof (digit_val_nonneg c Hc). lia.
Qed.

(** A parsed price is never negative: it is [NaN] or at least zero. *)
Lemma parseFloat_nonneg (s : string) :
  parseFloat s = NaN \/ ge (parseFloat s) (Num 0) = true.
Proof.
  unfold parseFloat.
  pose proof (spanDigits_digits s) as Hip.
  destruct (Str.spanDigits s) as [ip r1]; simpl in Hip.
  assert (Hint : truthy ip = true -> ge (Num (inject_Z (Str.digitsValue 0 ip))) (Num 0) = true).
  { intros _. unfold ge, le. apply Qle_bool_iff. unfold Qle; simpl.
    pose proof (digitsValue_nonneg ip 0 ltac:(lia) Hip). lia. }
  destruct r1 as [|c r2].
  - destruct (truthy ip); [right; auto | left; reflexivity].
  - destruct c as [[] [] [] [] [] [] [] []];
      try (destruct (truthy ip); [right; auto | left; reflexivity]).
    pose proof (spanDigits_digits r2) as Hfp.
    destruct (negb (truthy ip) && negb (truthy (fst (Str.spanDigits r2))));
      [left; reflexivity | right].
    unfold ge, le. apply Qle_bool_iff. rewrite Qred_correct.
    unfold Qle; simpl.
    pose proof (digitsValue_nonneg _ 0 ltac:(lia) (forallb_app _ _ _ Hip Hfp)). lia.
Qed.

Lemma parsePrice_nonneg (p : string) :
  parsePrice p = NaN \/ ge (parsePrice p) (Num 0) = true.
Proof.
  unfold parsePrice. destruct (negb (truthy p)); [right; reflexivity|].
  apply parseFloat_nonneg.
Qed.

Example parsePrice_ars : parsePrice "6199999 ARS" = Num (inject_Z 6199999).
Proof. reflexivity. Qed.

Example parsePrice_comma : parsePrice "1234,50" = Num (2469 # 2).
Proof. reflexivity. Qed.

Example parsePrice_empty : parsePrice "" = Num 0.
Proof. reflexivity. Qed.

Example parsePrice_two_commas : parsePrice "1,234,50" = Num (617 # 500).
Proof. reflexivity. Qed.

(** C3: a price text that is not empty but holds no digit is cleaned to
    the empty text and parsed to [NaN], not to 0; the guard that returns 0
    only covers the empty input. *)
Theorem parsePrice_no_digit_is_NaN :
  clean "ARS" = "" /\ parsePrice "ARS" = NaN /\ parsePrice "" = Num 0.
Proof. repeat split. Qed.


(** ** Field mapping *)

Section MappingFacts.

Variable encodeURIComponent : string -> string.
Variable randomId : nat -> string.

Local Abbreviation mapOne := (mapProduct encodeURIComponent randomId).
Local Abbreviation mapAll := (mapProducts encodeURIComponent randomId).

(** Price, name and installments of a mapped product depend on the element
    only, not on the random identifiers drawn before it. *)
Lemma mapProduct_fields (item : node) (k : nat) :
  price (fst (mapOne item k)) = priceOf item
  /\ listPrice (fst (mapOne item k)) = listPriceOf item
  /\ name (fst (mapOne item k)) = or_else (titleOf item) sinNombre
  /\ installments (fst (mapOne item k)) = installmentsOf item.
Proof. repeat split. Qed.

Lemma In_mapProducts (items : list node) :
  forall k p, In p (mapAll items k) ->
              exists item k', In item items /\ p = fst (mapOne item k').
Proof.
  induction items as [|it rest IH]; intros k p H; [destruct H|].
  cbn [mapProducts] in H.
  destruct (mapOne it k) as [q k'] eqn:E.
  destruct H as [<- | H].
  - exists it, k. split; [now left|]. now rewrite E.
  - destruct (IH k' p H) as (item & k2 & Hin & Hp).
    exists item, k2. split; [now right | exact Hp].
Qed.

Lemma mapProducts_In (items : list node) :
  forall k item, In item items ->
                 exists k', In (fst (mapOne item k')) (mapAll items k).
Proof.
  induction items as [|it rest IH]; intros k item H; [destruct H|].
  cbn [mapProducts].
  destruct (mapOne it k) as [q k'] eqn:E.
  destruct H as [<- | H].
  - exists k. left. now rewrite E.
  - destruct (IH k' item H) as (k2 & Hin). exists k2. now right.
Qed.

Lemma keep_mapProduct (item : node) (k k' : nat) :
  keep (fst (mapOne item k)) = keep (fst (mapOne item k')).
Proof. reflexivity. Qed.

Lemma installmentsOf_text (item : node) :
  installmentsOf item =
  match installmentText item with
  | Some t => parseInt t
  | None => Int 1
  end.
Proof.
  unfold installmentsOf, installmentText.
  destruct (match firstByTagName item "g:installment" with
            | Some n => Some n
            | None => firstByTagName item "installment"
            end) as [n|].
  - destruct (truthy _); reflexivity.
  - destruct (truthy _); [|reflexivity].
    destruct (Str.firstDigitRun _); reflexivity.
Qed.

(** C2 (as amended): the effective price is the parsed sale price as soon
    as the sale-price lookup returns some text, whatever it parses to, and
    the parsed list price otherwise; [listPrice] is the parsed list price
    when both lookups return text and 0 otherwise. *)
Theorem price_follows_sale_presence (item : node) (k : nat) :
  price (fst (mapOne item k)) =
    (if truthy (rawSalePriceOf item) then parsePrice (rawSalePriceOf item)
     else parsePrice (rawPriceOf item))
  /\ listPrice (fst (mapOne item k)) =
    (if truthy (rawSalePriceOf item) && truthy (rawPriceOf item)
     then parsePrice (rawPriceOf item) else Num 0)
  /\ (if truthy (rawSalePriceOf item) then True
      else price (fst (mapOne item k)) = parsePrice (rawPriceOf item)
           /\ listPrice (fst (mapOne item k)) = Num 0).
Proof.
  repeat split.
  destruct (truthy (rawSalePriceOf item)) eqn:E; [exact I|].
  cbn [fst price listPrice mapProduct].
  unfold priceOf, listPriceOf. rewrite E. split; reflexivity.
Qed.

End MappingFacts.

(** ** Normalisation *)

Section NormalizeFacts.

Import Fetch.

Variable encodeURIComponent : string -> string.
Variable randomId : nat -> string.

Local Abbreviation mapOne := (mapProduct encodeURIComponent randomId).
Local Abbreviation mapped := (mappedProducts encodeURIComponent randomId).
Local Abbreviation valid := (validProducts encodeURIComponent randomId).
Local Abbreviation normalizeDoc := (normalizeDoc encodeURIComponent randomId).

Lemma findItems_nil (doc : node) :
  findItems doc = [] <->
  getElementsByTagName doc "item" = []
  /\ getElementsByTagName doc "entry" = []
  /\ getElementsByTagName doc "product" = [].
Proof.
  unfold findItems.
  destruct (getElementsByTagName doc "item") as [|a l];
    destruct (getElementsByTagName doc "entry") as [|b m];
    destruct (getElementsByTagName doc "product") as [|c n];
    split; intros H; try discriminate; try reflexivity; try tauto;
    destruct H as (H1 & H2 & H3); discriminate.
Qed.

Lemma normalizeDoc_items (doc : node) :
  getElementsByTagName doc "parsererror" = [] ->
  findItems doc <> [] ->
  normalizeDoc doc =
    match valid (findItems doc) with
    | [] => Throw (Error msgNoValid)
    | ps => Ok ps
    end.
Proof.
  intros Hp Hi. unfold Fetch.normalizeDoc. rewrite Hp.
  destruct (findItems doc); [contradiction|reflexivity].
Qed.

(** C6: once the document has parsed, the product elements are those
    named item, else those named entry, else those named product, the first
    non-empty collection being taken; normalisation fails with the
    no-products error exactly when all three are empty. *)
Theorem findItems_first_nonempty (doc : node) :
  getElementsByTagName doc "parsererror" = [] ->
  findItems doc =
    match getElementsByTagName doc "item" with
    | _ :: _ => getElementsByTagName doc "item"
    | [] =>
        match getElementsByTagName doc "entry" with
        | _ :: _ => getElementsByTagName doc "entry"
        | [] => getElementsByTagName doc "product"
        end
    end
  /\ (getElementsByTagName doc "item" = []
       /\ getElementsByTagName doc "entry" = []
       /\ getElementsByTagName doc "product" = []
      <-> normalizeDoc doc = Throw (Error msgNoProducts)).
Proof.
  intros Hp. split.
  - unfold findItems.
    destruct (getElementsByTagName doc "item"); [|reflexivity].
    destruct (getElementsByTagName doc "entry"); reflexivity.
  - rewrite <- findItems_nil. unfold Fetch.normalizeDoc. rewrite Hp.
    destruct (findItems doc) as [|a l] eqn:E.
    + split; reflexivity.
    + split; [discriminate|].
      destruct (validProducts _ _ _); discriminate.
Qed.

Lemma keep_dropped (p : Product) : keep p = negb (dropped p).
Proof.
  unfold keep, dropped.
  destruct (gt (price p) (Num 0)), (String.eqb (name p) sinNombre); reflexivity.
Qed.

(** The filter as the program writes it: a record is kept when its price
    is above 0 or its name is not the sentinel. *)
Lemma filter_by_keep (doc : node) :
  getElementsByTagName doc "parsererror" = [] ->
  findItems doc <> [] ->
  valid (findItems doc)
    = List.filter (fun p => negb (dropped p)) (mapped (findItems doc))
  /\ (forall p, In p (valid (findItems doc)) <->
                In p (mapped (findItems doc))
                /\ ~ (gt (price p) (Num 0) = false /\ name p = sinNombre))
  /\ normalizeDoc doc =
       match valid (findItems doc) with
       | [] => Throw (Error msgNoValid)
       | ps => Ok ps
       end.
Proof.
  intros Hp Hi. split; [|split].
  - unfold validProducts. apply filter_ext. intros p. apply keep_dropped.
  - intros p. unfold validProducts. rewrite filter_In, keep_dropped.
    unfold dropped. rewrite negb_true_iff, andb_false_iff, negb_false_iff.
    rewrite <- String.eqb_eq.
    destruct (gt (price p) (Num 0)), (String.eqb (name p) sinNombre);
      intuition congruence.
  - now apply normalizeDoc_items.
Qed.

End NormalizeFacts.

(** ** Transport fallback *)

Section FetchFacts.

Import Fetch.

Variable encodeURIComponent : string -> string.
Variable randomId : nat -> string.
Variable fetch : string -> fetched.
Variable parseFromString : string -> node.

Local Abbreviation run := (tryStrategies fetch).

(** While no body has been obtained, the loop goes through the strategies
    one after the other and logs each of them. *)
Lemma tryStrategies_app (pre : list strategy) :
  forall st rest,
    vtruthy (xmlText (run st pre)) = false ->
    run st (pre ++ rest)%list = run (run st pre) rest
    /\ attempted (run st pre) = (attempted st ++ map sname pre)%list.
Proof.
  induction pre as [|a pre IH]; intros st rest H; cbn [tryStrategies app map] in *.
  - split; [reflexivity | now rewrite app_nil_r].
  - destruct (vtruthy (xmlText st)) eqn:E; [congruence|].
    destruct (IH (attempt fetch st a) rest H) as [H1 H2].
    split; [exact H1|]. rewrite H2.
    assert (Ha : attempted (attempt fetch st a) = (attempted st ++ [sname a])%list).
    { unfold attempt. destruct (fetch (url a)) as [e|res]; [reflexivity|].
      destruct (ok res); [|reflexivity].
      destruct (isWrapped a); [|reflexivity].
      destruct (contents res); reflexivity. }
    rewrite Ha, <- app_assoc. reflexivity.
Qed.

(** Once a body has been obtained the remaining strategies are skipped. *)
Lemma tryStrategies_break (l : list strategy) (st : loopState) :
  vtruthy (xmlText st) = true -> run st l = st.
Proof. intros H. destruct l; cbn [tryStrategies]; [reflexivity | now rewrite H]. Qed.

(** C1 (as amended): when a strategy answers successfully with a non-empty
    body carrying an HTML marker, and no earlier strategy has produced a
    body, that body is not accepted: the whole load fails with the HTML
    error naming that strategy, and the strategies after it are never
    attempted. *)
Theorem html_body_fails_load (input : string) (pre post : list strategy)
    (s : strategy) (res : response) (body : string) :
  truthy (getXmlUrl input) = true ->
  strategies encodeURIComponent (getXmlUrl input) = (pre ++ s :: post)%list ->
  vtruthy (xmlText (run initLoop pre)) = false ->
  fetch (url s) = Resolved res ->
  ok res = true ->
  (if isWrapped s then contents res = Some (VString body) else text res = body) ->
  truthy body = true ->
  isHtml body = true ->
  fetchClusterData encodeURIComponent randomId fetch parseFromString input
  = Some {| products := []; selectedProduct := None;
            errorMsg := Some (msgHtml (sname s));
            tried := (map sname pre ++ [sname s])%list |}.
Proof.
  intros Hurl Hs Hpre Hf Hok Hbody Ht Hhtml.
  unfold fetchClusterData. rewrite Hurl. cbn [negb].
  unfold load. rewrite Hs.
  destruct (tryStrategies_app pre initLoop (s :: post) Hpre) as [-> Hlog].
  cbn [tryStrategies]. rewrite Hpre.
  assert (Hst : attempt fetch (run initLoop pre) s
                = {| xmlText := VString body;
                     lastError := lastError (run initLoop pre);
                     successSource := sname s;
                     attempted := (map sname pre ++ [sname s])%list |}).
  { unfold attempt. rewrite Hf, Hok, Hlog. cbn [attempted initLoop app].
    destruct (isWrapped s); [rewrite Hbody | rewrite Hbody]; reflexivity. }
  rewrite Hst, tryStrategies_break by (cbn; exact Ht).
  unfold checkText. cbn [xmlText vtruthy successSource attempted].
  rewrite Ht, Hhtml. cbn [negb bind messageOf].
  unfold msgHtml, or_else. reflexivity.
Qed.

End FetchFacts.

(** ** Layout *)

Section DrawFacts.

Import Canvas.

Variable formatPrice : jsnum -> string.
Variable cfg : RenderConfig.

Local Abbreviation draw := (drawProduct formatPrice cfg).

(** Case analysis on everything a render branches on, followed by
    evaluation of the observation. *)
Ltac render_cases p img dl :=
  unfold drawProduct, badges, priceBlock, bankBadge, installmentsBadge,
    pickupBadge, productImage, downloadTrigger;
  destruct img, dl;
  destruct (showPrice cfg), (showBadges cfg);
  destruct (truthy (promoTextOf cfg p)), (pickup p) as [[|]|];
  try discriminate.

(** The bank badge is gated by the resolved promotion text and has a fixed
    place, size and headline. *)
Lemma bank_badge_gate (p : Product) (img : imageLoad) (dl : bool) :
  roundRectsOf 280 80 (draw p img dl)
    = (if showBadges cfg && truthy (promoTextOf cfg p) then [(30, 150)] else [])
  /\ textsAt 170 190 (draw p img dl)
    = (if showBadges cfg && truthy (promoTextOf cfg p) then ["10% OFF"] else []).
Proof.
  destruct (igt (installments p) 1) eqn:E;
    split; render_cases p img dl; rewrite ?E; lazy; reflexivity.
Qed.


End DrawFacts.

(** ** The properties on the sample inputs *)

Module OnSamples.

Import Samples Fetch Canvas.

(** The first relay answers with an HTML page: the load fails there and
    the second relay, which would have served the feed, is never tried. *)
Lemma html_first_relay_stops_load :
  fetchClusterData enc rnd netHtmlFirst parseAny feedUrl
  = Some {| products := []; selectedProduct := None;
            errorMsg := Some (msgHtml "AllOrigins Raw");
            tried := ["AllOrigins Raw"] |}
  /\ netHtmlFirst (url relay2)
     = Resolved {| ok := true; text := "<rss/>"; contents := Some (VString "<rss/>") |}.
Proof. split; reflexivity. Qed.

Lemma html_body_fails_load_witness :
  fetchClusterData enc rnd netHtmlSecond parseAny feedUrl
  = Some {| products := []; selectedProduct := None;
            errorMsg := Some (msgHtml "CORSProxy");
            tried := ["AllOrigins Raw"; "CORSProxy"] |}.
Proof.
  exact (html_body_fails_load enc rnd netHtmlSecond parseAny feedUrl
           [relay1] [relay3] relay2 htmlResponse htmlPage
           eq_refl eq_refl eq_refl eq_refl eq_refl eq_refl eq_refl eq_refl).
Defined.

(** A sale price that parses to zero is still the effective price. *)
Lemma sale_price_zero_is_used :
  truthy (rawSalePriceOf itemSaleZero) = true
  /\ parsePrice (rawSalePriceOf itemSaleZero) = Num 0
  /\ parsePrice (rawPriceOf itemSaleZero) = ofZ 100
  /\ price (fst (mapProduct enc rnd itemSaleZero 0)) = Num 0
  /\ price (fst (mapProduct enc rnd itemSaleZero 0))
     <> parsePrice (rawPriceOf itemSaleZero).
Proof. repeat split. intros H. vm_compute in H. discriminate H. Qed.

(** A valid element whose feed announces zero installments. *)
Lemma zero_months_breaks_invariant :
  validElement enc rnd itemZeroMonths = true
  /\ exists p,
       normalizeDoc enc rnd (feedOf [itemZeroMonths]) = Ok [p]
       /\ installments p = Int 0
       /\ ige (installments p) 1 = false.
Proof. split; [reflexivity|]. eexists. repeat split. Qed.

Lemma findItems_first_nonempty_witness :
  findItems entryFeed = getElementsByTagName entryFeed "entry"
  /\ normalizeDoc enc rnd emptyFeed = Throw (Error msgNoProducts).
Proof.
  split.
  - exact (proj1 (findItems_first_nonempty enc rnd entryFeed eq_refl)).
  - apply (proj2 (findItems_first_nonempty enc rnd emptyFeed eq_refl)).
    repeat split.
Defined.

(** C5: a product carrying its own promotion text gets a badge whose second
    line is the fixed text, not the promotion text, which is painted
    nowhere. *)
Theorem bank_badge_second_line_is_fixed :
  promoTextOf cfgAll visaProduct = "20% OFF VISA"
  /\ roundRectsOf 280 80 (drawProduct fmt cfgAll visaProduct LoadFailed false)
     = [(30, 150)]
  /\ textsAt 170 190 (drawProduct fmt cfgAll visaProduct LoadFailed false)
     = ["10% OFF"]
  /\ textsAt 170 215 (drawProduct fmt cfgAll visaProduct LoadFailed false)
     = ["1 PAGO Débito"]
  /\ existsb (String.eqb "20% OFF VISA")
       (texts (drawProduct fmt cfgAll visaProduct LoadFailed false)) = false.
Proof. repeat split. Qed.



End OnSamples.

(** * Further properties *)

(** ** Text helpers *)

Lemma truthy_app_cons (a b : string) (c : ascii) : truthy (a ++ String c b) = true.
Proof. destruct a; reflexivity. Qed.

Lemma truthy_empty (s : string) : truthy s = false -> s = "".
Proof. destruct s; [reflexivity | discriminate]. Qed.

Lemma strfilter_app (f : ascii -> bool) (a b : string) :
  Str.filter f (a ++ b) = Str.filter f a ++ Str.filter f b.
Proof.
  induction a as [|c r IH]; simpl; [reflexivity|].
  destruct (f c); simpl; now rewrite IH.
Qed.

Lemma strfilter_id (f : ascii -> bool) (s : string) :
  Str.forallb f s = true -> Str.filter f s = s.
Proof.
  induction s as [|c r IH]; simpl; [reflexivity|].
  intros H. apply andb_prop in H as [Hc Hr]. now rewrite Hc, IH.
Qed.

Lemma strfilter_none (f : ascii -> bool) (s : string) :
  Str.forallb (fun c => negb (f c)) s = true -> Str.filter f s = "".
Proof.
  induction s as [|c r IH]; simpl; [reflexivity|].
  intros H. apply andb_prop in H as [Hc Hr].
  apply negb_true_iff in Hc. now rewrite Hc, IH.
Qed.

Lemma strfilter_empty_none (f : ascii -> bool) (s : string) :
  Str.filter f s = "" -> Str.forallb (fun c => negb (f c)) s = true.
Proof.
  induction s as [|c r IH]; simpl; [reflexivity|].
  destruct (f c); [discriminate|]. intros H. now rewrite IH.
Qed.

Lemma forallb_weaken (f g : ascii -> bool) (s : string) :
  (forall c, f c = true -> g c = true) ->
  Str.forallb f s = true -> Str.forallb g s = true.
Proof.
  intros Hfg. induction s as [|c r IH]; simpl; [reflexivity|].
  intros H. apply andb_prop in H as [Hc Hr]. now rewrite (Hfg c Hc), IH.
Qed.

Lemma digit_priceChar (c : ascii) : Str.is_digit c = true -> priceChar c = true.
Proof. unfold priceChar. now intros ->. Qed.

Lemma digit_not_comma (c : ascii) : Str.is_digit c = true -> Ascii.eqb c "," = false.
Proof.
  intros H. destruct (Ascii.eqb c ",") eqn:E; [|reflexivity].
  apply Ascii.eqb_eq in E. subst c. discriminate H.
Qed.

Lemma replaceFirst_digits (d x : string) :
  Str.forallb Str.is_digit d = true ->
  Str.replaceFirst "," "." (d ++ x) = d ++ Str.replaceFirst "," "." x.
Proof.
  induction d as [|c r IH]; simpl; [reflexivity|].
  intros H. apply andb_prop in H as [Hc Hr].
  now rewrite (digit_not_comma c Hc), IH.
Qed.

Lemma spanDigits_all (d : string) :
  Str.forallb Str.is_digit d = true -> Str.spanDigits d = (d, "").
Proof.
  induction d as [|c r IH]; simpl; [reflexivity|].
  intros H. apply andb_prop in H as [Hc Hr]. now rewrite Hc, IH.
Qed.

Lemma spanDigits_stop (d r : string) (c : ascii) :
  Str.forallb Str.is_digit d = true -> Str.is_digit c = false ->
  Str.spanDigits (d ++ String c r) = (d, String c r).
Proof.
  intros Hd Hc. induction d as [|a d IH]; simpl.
  - now rewrite Hc.
  - simpl in Hd. apply andb_prop in Hd as [Ha Hd]. now rewrite Ha, IH.
Qed.

Lemma spanDigits_nodigit (s : string) :
  Str.forallb Obs.noDigit s = true -> Str.spanDigits s = ("", s).
Proof.
  destruct s as [|c r]; simpl; [reflexivity|].
  intros H. apply andb_prop in H as [Hc _].
  unfold Obs.noDigit in Hc. apply negb_true_iff in Hc. now rewrite Hc.
Qed.

(** ** Price cleaning, continued *)

(** X1: digits spelling a whole number of at most 2^53, wrapped in any
    text free of digits, points and commas (currency code, symbol, spaces,
    sign), parse to that number. *)
Theorem parsePrice_digits_in_noise (pre d post : string) :
  truthy d = true ->
  Str.forallb Str.is_digit d = true ->
  Str.digitsValue 0 d <= Obs.maxExact ->
  Str.forallb Obs.noPriceChar pre = true ->
  Str.forallb Obs.noPriceChar post = true ->
  parsePrice (pre ++ d ++ post) = ofZ (Str.digitsValue 0 d).
Proof.
  intros Ht Hd _ Hpre Hpost. unfold parsePrice.
  assert (Hne : truthy (pre ++ d ++ post) = true).
  { destruct d as [|c r]; [discriminate|]. apply truthy_app_cons. }
  rewrite Hne. cbn [negb]. unfold clean.
  rewrite !strfilter_app, (strfilter_none _ _ Hpre), (strfilter_none _ _ Hpost).
  rewrite (strfilter_id _ _ (forallb_weaken _ _ _ digit_priceChar Hd)).
  cbn [append]. rewrite replaceFirst_digits by exact Hd. cbn [Str.replaceFirst].
  assert (Hd0 : d ++ "" = d) by (clear; induction d; simpl; congruence).
  rewrite Hd0. unfold parseFloat. rewrite (spanDigits_all d Hd), Ht. reflexivity.
Qed.

Lemma app_empty_r (s : string) : s ++ "" = s.
Proof. induction s; simpl; congruence. Qed.

Lemma clean_digits (d : string) :
  Str.forallb Str.is_digit d = true -> clean d = d.
Proof.
  intros H. unfold clean.
  rewrite (strfilter_id _ _ (forallb_weaken _ _ _ digit_priceChar H)).
  pose proof (replaceFirst_digits d "" H) as E. cbn [Str.replaceFirst] in E.
  now rewrite app_empty_r in E.
Qed.

Lemma clean_digits_point (d x : string) :
  Str.forallb Str.is_digit d = true ->
  clean (d ++ String "." x) = d ++ String "." (clean x).
Proof.
  intros H. unfold clean.
  rewrite strfilter_app, (strfilter_id _ _ (forallb_weaken _ _ _ digit_priceChar H)).
  change (Str.filter priceChar (String "." x)) with (String "." (Str.filter priceChar x)).
  now rewrite replaceFirst_digits.
Qed.

Lemma clean_digits_comma (d x : string) :
  Str.forallb Str.is_digit d = true ->
  clean (d ++ String "," x) = d ++ String "." (Str.filter priceChar x).
Proof.
  intros H. unfold clean.
  rewrite strfilter_app, (strfilter_id _ _ (forallb_weaken _ _ _ digit_priceChar H)).
  change (Str.filter priceChar (String "," x)) with (String "," (Str.filter priceChar x)).
  now rewrite replaceFirst_digits.
Qed.

Lemma parseFloat_two_groups (d1 d2 tail : string) :
  Str.forallb Str.is_digit d1 = true ->
  Str.forallb Str.is_digit d2 = true ->
  parseFloat (d1 ++ String "." (d2 ++ String "." tail))
  = parseFloat (d1 ++ String "." d2).
Proof.
  intros H1 H2. unfold parseFloat.
  rewrite !(spanDigits_stop d1 _ "." H1 eq_refl).
  now rewrite (spanDigits_stop d2 _ "." H2 eq_refl), (spanDigits_all d2 H2).
Qed.

(** X2: only the first point counts: whatever follows a second point
    (thousands groups, a decimal comma) is ignored, so 1.234.567 and
    1.234,50 are both read as 1.234. *)
Theorem parsePrice_second_point_cut (d1 d2 rest : string) :
  Str.forallb Str.is_digit d1 = true ->
  Str.forallb Str.is_digit d2 = true ->
  parsePrice (d1 ++ "." ++ d2 ++ "." ++ rest) = parsePrice (d1 ++ "." ++ d2)
  /\ parsePrice (d1 ++ "." ++ d2 ++ "," ++ rest) = parsePrice (d1 ++ "." ++ d2).
Proof.
  intros H1 H2. unfold parsePrice. cbn [append].
  rewrite !truthy_app_cons. cbn [negb].
  rewrite !(clean_digits_point d1 _ H1), (clean_digits_point d2 _ H2),
    (clean_digits_comma d2 _ H2), (clean_digits d2 H2).
  split; apply parseFloat_two_groups; assumption.
Qed.

Lemma forallb_strfilter (f g : ascii -> bool) (s : string) :
  Str.forallb g s = true -> Str.forallb g (Str.filter f s) = true.
Proof.
  induction s as [|c r IH]; simpl; [reflexivity|].
  intros H. apply andb_prop in H as [Hc Hr].
  destruct (f c); simpl; [rewrite Hc|]; auto.
Qed.

Lemma forallb_replaceFirst (g : ascii -> bool) (a b : ascii) (s : string) :
  g b = true -> Str.forallb g s = true ->
  Str.forallb g (Str.replaceFirst a b s) = true.
Proof.
  intros Hb. induction s as [|c r IH]; simpl; [reflexivity|].
  intros H. apply andb_prop in H as [Hc Hr].
  destruct (Ascii.eqb c a); simpl; [rewrite Hb | rewrite Hc]; auto.
Qed.

Lemma parseFloat_nodigit (s : string) :
  Str.forallb Obs.noDigit s = true -> parseFloat s = NaN.
Proof.
  intros H. unfold parseFloat. rewrite (spanDigits_nodigit s H).
  destruct s as [|c r2]; [reflexivity|].
  simpl in H. apply andb_prop in H as [_ Hr].
  pose proof (spanDigits_nodigit r2 Hr) as Hr2.
  destruct c as [[] [] [] [] [] [] [] []]; cbn [truthy negb andb];
    try reflexivity.
  rewrite Hr2. reflexivity.
Qed.

(** X3: a price text that is not empty and holds no digit at all is read
    as [NaN], whatever else it contains. *)
Theorem parsePrice_without_digit (p : string) :
  truthy p = true ->
  Str.forallb Obs.noDigit p = true ->
  parsePrice p = NaN.
Proof.
  intros Ht Hn. unfold parsePrice. rewrite Ht. cbn [negb].
  apply parseFloat_nodigit. unfold clean.
  apply forallb_replaceFirst; [reflexivity|].
  now apply forallb_strfilter.
Qed.

(** X4: characters other than digits, points and commas never change the
    result: a price text and the same text with all of them (a minus sign
    included) removed parse to the same number, provided something is
    left. *)
Theorem parsePrice_ignores_other_chars (p : string) :
  truthy (Str.filter priceChar p) = true ->
  parsePrice p = parsePrice (Str.filter priceChar p).
Proof.
  intros H. unfold parsePrice. rewrite H.
  assert (Hp : truthy p = true).
  { destruct p; [discriminate H | reflexivity]. }
  rewrite Hp. cbn [negb]. unfold clean.
  now rewrite (strfilter_id _ _ (filter_forallb priceChar p)).
Qed.

(** ** Trimming and the feed address *)

Lemma trimStart_step (s : string) :
  Str.trimStart s = match Str.blankLen s with
                    | O => s
                    | k => Str.trimStart (Str.drop k s)
                    end.
Proof.
  destruct s as [|a [|b [|c r]]]; cbn [Str.trimStart Str.blankLen Str.drop];
    try reflexivity.
  - destruct (Str.is_space a); reflexivity.
  - destruct (Str.is_space a); [reflexivity|].
    destruct (Str.blank2 a b); reflexivity.
  - destruct (Str.is_space a); [reflexivity|].
    destruct (Str.blank2 a b); [reflexivity|].
    destruct (Str.blank3 a b c); reflexivity.
Qed.

Lemma blankLen_le (s : string) : (Str.blankLen s <= String.length s)%nat.
Proof.
  destruct s as [|a [|b [|c r]]]; cbn [Str.blankLen String.length];
    repeat match goal with |- context [if ?x then _ else _] => destruct x end; lia.
Qed.

Lemma drop_length (k : nat) (s : string) :
  (k <= String.length s)%nat ->
  String.length (Str.drop k s) = (String.length s - k)%nat.
Proof.
  revert s. induction k as [|k IH]; intros s H; [simpl; destruct s; simpl; lia|].
  destruct s as [|c r]; [simpl in H; lia|]. simpl in *. apply IH. lia.
Qed.

(** A blank at the head of a text is still there when the text is
    extended. *)
Lemma blankLen_app (u w : string) :
  Str.blankLen u <> 0%nat ->
  Str.blankLen (u ++ w) = Str.blankLen u
  /\ Str.drop (Str.blankLen u) (u ++ w) = Str.drop (Str.blankLen u) u ++ w.
Proof.
  destruct u as [|a [|b [|c r]]]; cbn [Str.blankLen append Str.drop]; intros H;
    try congruence.
  - destruct (Str.is_space a); [split; reflexivity | congruence].
  - destruct (Str.is_space a); [split; reflexivity|].
    destruct (Str.blank2 a b); [split; reflexivity | congruence].
  - destruct (Str.is_space a); [split; reflexivity|].
    destruct (Str.blank2 a b); [split; reflexivity|].
    destruct (Str.blank3 a b c); [split; reflexivity | congruence].
Qed.

Lemma trimStart_headless_aux (n : nat) :
  forall s, (String.length s <= n)%nat -> Str.blankLen (Str.trimStart s) = 0%nat.
Proof.
  induction n as [|n IH]; intros s H.
  - destruct s; [reflexivity | simpl in H; lia].
  - rewrite trimStart_step. destruct (Str.blankLen s) as [|k] eqn:E; [exact E|].
    apply IH. pose proof (blankLen_le s). rewrite drop_length by lia. lia.
Qed.

(** What [trimStart] returns does not start with a blank. *)
Lemma trimStart_headless (s : string) : Str.blankLen (Str.trimStart s) = 0%nat.
Proof. apply (trimStart_headless_aux (String.length s)). lia. Qed.

Lemma headless_fixed (s : string) : Str.blankLen s = 0%nat -> Str.trimStart s = s.
Proof. intros H. rewrite trimStart_step. now rewrite H. Qed.

Lemma allBlank_app_aux (n : nat) :
  forall u w, (String.length u <= n)%nat -> Str.allBlank u = true ->
              Str.trimStart (u ++ w) = Str.trimStart w.
Proof.
  induction n as [|n IH]; intros u w Hn Hu.
  - destruct u; [reflexivity | simpl in Hn; lia].
  - destruct u as [|a r]; [reflexivity|].
    remember (String a r) as u eqn:Eu.
    assert (Hlen : (String.length u <= S n)%nat) by exact Hn.
    assert (Hne : truthy u = true) by (subst u; reflexivity).
    clear Eu Hn.
    unfold Str.allBlank in Hu. apply negb_true_iff in Hu.
    destruct (Str.blankLen u) as [|k] eqn:E.
    + rewrite (headless_fixed _ E) in Hu. congruence.
    + assert (Hk : Str.blankLen u <> 0%nat) by lia.
      destruct (blankLen_app u w Hk) as [E1 E2]. rewrite E in E1, E2.
      rewrite (trimStart_step (u ++ w)), E1, E2.
      rewrite trimStart_step, E in Hu.
      apply IH.
      * pose proof (blankLen_le u). rewrite drop_length by lia. lia.
      * unfold Str.allBlank. now rewrite Hu.
Qed.

(** Blanks in front of a text are removed whatever follows them. *)
Lemma allBlank_app (u w : string) :
  Str.allBlank u = true -> Str.trimStart (u ++ w) = Str.trimStart w.
Proof. apply (allBlank_app_aux (String.length u)). lia. Qed.

(** [trimEnd] removes a run of blanks from the end. *)
Lemma trimEnd_split (s : string) :
  exists w, s = Str.trimEnd s ++ w /\ Str.allBlank w = true.
Proof.
  induction s as [|c r (w & Hw & Hb)].
  - exists "". split; reflexivity.
  - cbn [Str.trimEnd]. destruct (Str.allBlank (String c r)) eqn:E.
    + exists (String c r). split; [reflexivity | exact E].
    + exists w. split; [cbn [append]; now rewrite <- Hw | exact Hb].
Qed.

Lemma trimEnd_idem (s : string) : Str.trimEnd (Str.trimEnd s) = Str.trimEnd s.
Proof.
  induction s as [|c r IH]; [reflexivity|].
  cbn [Str.trimEnd]. destruct (Str.allBlank (String c r)) eqn:E; [reflexivity|].
  cbn [Str.trimEnd]. rewrite IH.
  destruct (Str.allBlank (String c (Str.trimEnd r))) eqn:E2; [|reflexivity].
  destruct (trimEnd_split r) as (w & Hw & Hb).
  pose proof (allBlank_app (String c (Str.trimEnd r)) w E2) as H.
  cbn [append] in H. rewrite <- Hw in H.
  unfold Str.allBlank in E, Hb. rewrite H in E. rewrite E in Hb. discriminate.
Qed.

Lemma headless_prefix (u w : string) :
  Str.blankLen (u ++ w) = 0%nat -> Str.blankLen u = 0%nat.
Proof.
  intros H. destruct (Str.blankLen u) as [|k] eqn:E; [reflexivity|].
  assert (Hk : Str.blankLen u <> 0%nat) by lia.
  destruct (blankLen_app u w Hk) as [E1 _]. lia.
Qed.

Lemma trim_idem (s : string) : Str.trim (Str.trim s) = Str.trim s.
Proof.
  unfold Str.trim.
  pose proof (trimStart_headless s) as H.
  destruct (trimEnd_split (Str.trimStart s)) as (w & Hw & _).
  rewrite Hw in H. apply headless_prefix in H.
  rewrite (headless_fixed _ H). apply trimEnd_idem.
Qed.

(** The bytes of a blank are blank bytes. *)
Lemma blankLen_bytes (s : string) :
  Str.blankLen s <> 0%nat ->
  Str.forallb Str.blankByte s
  = Str.forallb Str.blankByte (Str.drop (Str.blankLen s) s).
Proof.
  assert (Hhigh : forall c n, (Str.code c =? n)%nat = true -> (128 <= n)%nat ->
                              Str.blankByte c = true).
  { intros c n E Hn. apply Nat.eqb_eq in E. unfold Str.blankByte.
    apply orb_true_iff. right. apply Nat.leb_le. lia. }
  destruct s as [|a [|b [|c r]]]; cbn [Str.blankLen Str.drop Str.forallb];
    intros H; try congruence.
  - destruct (Str.is_space a) eqn:Ea; [|congruence].
    unfold Str.blankByte. now rewrite Ea.
  - destruct (Str.is_space a) eqn:Ea.
    { unfold Str.blankByte at 1. now rewrite Ea. }
    destruct (Str.blank2 a b) eqn:E2; [|congruence].
    unfold Str.blank2 in E2. apply andb_prop in E2 as [Ha Hb].
    now rewrite (Hhigh a 194%nat Ha), (Hhigh b 160%nat Hb) by lia.
  - destruct (Str.is_space a) eqn:Ea.
    { unfold Str.blankByte at 1. now rewrite Ea. }
    destruct (Str.blank2 a b) eqn:E2.
    { unfold Str.blank2 in E2. apply andb_prop in E2 as [Ha Hb].
      now rewrite (Hhigh a 194%nat Ha), (Hhigh b 160%nat Hb) by lia. }
    destruct (Str.blank3 a b c) eqn:E3; [|congruence].
    assert (Hc : Str.blankByte a = true /\ Str.blankByte b = true
                 /\ Str.blankByte c = true).
    { unfold Str.blank3 in E3.
      repeat (apply orb_true_iff in E3; destruct E3 as [E3|E3]);
        apply andb_prop in E3 as [E3 Hc3]; apply andb_prop in E3 as [Ha3 Hb3];
        (split; [eapply Hhigh; [exact Ha3 | lia]
                | split; [eapply Hhigh; [exact Hb3 | lia]|]]);
        try (eapply Hhigh; [exact Hc3 | lia]).
      unfold Str.blankByte. apply orb_true_iff. right.
      repeat (apply orb_true_iff in Hc3; destruct Hc3 as [Hc3|Hc3]);
        try (apply Nat.eqb_eq in Hc3; apply Nat.leb_le; lia).
      apply andb_prop in Hc3 as [Hc3 _]. exact Hc3. }
    destruct Hc as (-> & -> & ->). reflexivity.
Qed.

Lemma allBlank_bytes_aux (n : nat) :
  forall s, (String.length s <= n)%nat -> Str.allBlank s = true ->
            Str.forallb Str.blankByte s = true.
Proof.
  induction n as [|n IH]; intros s Hn Hs.
  - destruct s; [reflexivity | simpl in Hn; lia].
  - destruct s as [|a r]; [reflexivity|].
    remember (String a r) as u eqn:Eu.
    assert (Hne : truthy u = true) by (subst u; reflexivity).
    assert (Hpos : (1 <= String.length u)%nat) by (subst u; simpl; lia).
    clear Eu.
    unfold Str.allBlank in Hs. apply negb_true_iff in Hs.
    destruct (Str.blankLen u) as [|k] eqn:E.
    + rewrite (headless_fixed _ E) in Hs. congruence.
    + assert (Hk : Str.blankLen u <> 0%nat) by lia.
      rewrite (blankLen_bytes u Hk), E.
      rewrite trimStart_step, E in Hs.
      apply IH.
      * pose proof (blankLen_le u). rewrite drop_length by lia. lia.
      * unfold Str.allBlank. now rewrite Hs.
Qed.

(** A text of blanks consists of blank bytes. *)
Lemma allBlank_bytes (s : string) :
  Str.allBlank s = true -> Str.forallb Str.blankByte s = true.
Proof. apply (allBlank_bytes_aux (String.length s)). lia. Qed.

Lemma forallb_app_false (f : ascii -> bool) (a b : string) :
  Str.forallb f b = false -> Str.forallb f (a ++ b) = false.
Proof.
  intros H. induction a as [|c r IH]; [exact H|].
  cbn [append Str.forallb]. rewrite IH. apply andb_false_r.
Qed.

(** Nothing is removed from the end of a text that ends with a part
    holding a byte no blank contains, beyond what is removed from that
    part. *)
Lemma trimEnd_app (a b : string) :
  Str.forallb Str.blankByte b = false ->
  Str.trimEnd (a ++ b) = a ++ Str.trimEnd b.
Proof.
  intros H. induction a as [|c r IH]; [reflexivity|].
  cbn [append Str.trimEnd].
  destruct (Str.allBlank (String c (r ++ b))) eqn:E.
  - apply allBlank_bytes in E.
    change (String c (r ++ b)) with (String c r ++ b) in E.
    now rewrite (forallb_app_false _ _ _ H) in E.
  - now rewrite IH.
Qed.

Lemma trim_fixed (u b : string) :
  Str.blankLen (u ++ b) = 0%nat ->
  Str.forallb Str.blankByte b = false ->
  Str.trimEnd b = b ->
  Str.trim (u ++ b) = u ++ b.
Proof.
  intros Hh Hb Hfix. unfold Str.trim.
  rewrite (headless_fixed _ Hh), trimEnd_app by exact Hb. now rewrite Hfix.
Qed.

Lemma clusterUrl_fixed (t : string) :
  Fetch.getXmlUrl ("https://www.pardo.com.ar/XMLData/cluster" ++ t ++ ".xml")
  = "https://www.pardo.com.ar/XMLData/cluster" ++ t ++ ".xml".
Proof.
  unfold Fetch.getXmlUrl.
  assert (E : Str.trim ("https://www.pardo.com.ar/XMLData/cluster" ++ t ++ ".xml")
              = "https://www.pardo.com.ar/XMLData/cluster" ++ t ++ ".xml").
  { unfold Str.trim. rewrite headless_fixed by reflexivity.
    rewrite !trimEnd_app; [reflexivity | reflexivity |].
    apply forallb_app_false. reflexivity. }
  rewrite E. reflexivity.
Qed.

(** A digit does not start a blank. *)
Lemma trimStart_digit (c : ascii) (r : string) :
  Str.is_digit c = true -> Str.trimStart (String c r) = String c r.
Proof.
  intros H. apply headless_fixed.
  destruct c as [[] [] [] [] [] [] [] []]; try discriminate H;
    destruct r as [|b [|c' r']]; reflexivity.
Qed.

(** X5: resolving the feed address is idempotent: the address obtained
    from any input (a cluster number or a URL, with surrounding blanks) is
    left unchanged when resolved again. *)
Theorem getXmlUrl_idempotent (input : string) :
  Fetch.getXmlUrl (Fetch.getXmlUrl input) = Fetch.getXmlUrl input.
Proof.
  unfold Fetch.getXmlUrl at 2 3.
  destruct (Str.allDigits (Str.trim input)) eqn:E.
  - apply clusterUrl_fixed.
  - unfold Fetch.getXmlUrl. now rewrite trim_idem, E.
Qed.

Lemma getXmlUrl_truthy (input : string) :
  truthy (Fetch.getXmlUrl input) = truthy (Str.trim input).
Proof.
  unfold Fetch.getXmlUrl. destruct (Str.allDigits (Str.trim input)) eqn:E;
    [|reflexivity].
  unfold Str.allDigits in E. apply andb_prop in E as [E _]. now rewrite E.
Qed.

Lemma prefix_app (p b : string) : String.prefix p (p ++ b) = true.
Proof.
  induction p as [|c r IH]; simpl; [destruct b; reflexivity|].
  destruct (ascii_dec c c) as [_|N]; [exact IH | now elim N].
Qed.

Lemma includes_app (a p b : string) : Str.includes (a ++ p ++ b) p = true.
Proof.
  induction a as [|c r IH].
  - cbn [append].
    assert (E : forall s, String.prefix p s = true -> Str.includes s p = true).
    { intros s H. destruct s; cbn [Str.includes]; now rewrite H. }
    apply E, prefix_app.
  - cbn [append Str.includes]. rewrite IH. apply orb_true_r.
Qed.

(** X6: a body that contains the five characters of an opening html tag
    anywhere, even inside an otherwise well-formed feed, is classified as
    an HTML page. *)
Theorem isHtml_anywhere (a b : string) : Fetch.isHtml (a ++ "<html" ++ b) = true.
Proof. unfold Fetch.isHtml. rewrite includes_app. apply orb_true_r. Qed.

(** ** Transport fallback, continued *)

Section MoreFetchFacts.

Import Fetch.

Variable encodeURIComponent : string -> string.
Variable randomId : nat -> string.
Variable fetch : string -> fetched.
Variable parseFromString : string -> node.

Local Abbreviation run := (tryStrategies fetch).
Local Abbreviation fetchAll :=
  (fetchClusterData encodeURIComponent randomId fetch parseFromString).

Lemma attempt_log (st : loopState) (s : strategy) :
  attempted (attempt fetch st s) = (attempted st ++ [sname s])%list.
Proof.
  unfold attempt. destruct (fetch (url s)) as [e|res]; [reflexivity|].
  destruct (ok res); [|reflexivity].
  destruct (isWrapped s); [|reflexivity].
  destruct (contents res); reflexivity.
Qed.

Lemma attempt_no_body (st : loopState) (s : strategy) :
  vtruthy (xmlText st) = false ->
  Obs.yieldsBody fetch s = false ->
  vtruthy (xmlText (attempt fetch st s)) = false.
Proof.
  unfold Obs.yieldsBody, attempt. intros Hst H.
  destruct (fetch (url s)) as [e|res]; [exact Hst|].
  destruct (ok res); [|exact Hst].
  destruct (isWrapped s); cbn [andb] in H.
  - destruct (contents res); [exact H | exact Hst].
  - exact H.
Qed.

Lemma run_no_body (l : list strategy) :
  forall st,
    vtruthy (xmlText st) = false ->
    Forall (fun s => Obs.yieldsBody fetch s = false) l ->
    vtruthy (xmlText (run st l)) = false.
Proof.
  induction l as [|a l IH]; intros st Hst Hl; cbn [tryStrategies]; [exact Hst|].
  rewrite Hst. inversion Hl; subst.
  apply IH; [now apply attempt_no_body | assumption].
Qed.

(** The log only grows, by strategies taken in order. *)
Lemma run_log_prefix (l : list strategy) :
  forall st, exists n,
    (n <= length l)%nat
    /\ attempted (run st l) = (attempted st ++ firstn n (map sname l))%list
    /\ (vtruthy (xmlText st) = false -> l <> [] -> (1 <= n)%nat).
Proof.
  induction l as [|a l IH]; intros st; cbn [tryStrategies].
  - exists 0%nat. cbn. rewrite app_nil_r. repeat split; [lia | congruence].
  - destruct (vtruthy (xmlText st)) eqn:E.
    + exists 0%nat. cbn. rewrite app_nil_r. repeat split; [lia | congruence].
    + destruct (IH (attempt fetch st a)) as (n & Hn & Hlog & _).
      exists (S n). cbn [length firstn map]. repeat split; [lia | | lia].
      rewrite Hlog, attempt_log, <- app_assoc. reflexivity.
Qed.

Lemma normalizeDoc_ok (doc : node) (ps : list Product) :
  normalizeDoc encodeURIComponent randomId doc = Ok ps ->
  ps = validProducts encodeURIComponent randomId (findItems doc) /\ ps <> [].
Proof.
  unfold normalizeDoc.
  destruct (getElementsByTagName doc "parsererror"); [|discriminate].
  destruct (findItems doc) as [|a l]; [discriminate|].
  destruct (validProducts _ _ (a :: l)) as [|p q] eqn:E; [discriminate|].
  intros H. injection H as <-. split; [reflexivity | discriminate].
Qed.

(** X7: whatever the network and the parser do, the strategies attempted
    are a non-empty initial segment of the fixed list, in its order: no
    relay is skipped, repeated or tried out of turn. *)
Theorem tried_is_initial_segment (input : string) (st : appState) :
  fetchAll input = Some st ->
  exists n, (1 <= n <= 3)%nat
            /\ tried st
               = firstn n ["AllOrigins Raw"; "CORSProxy"; "AllOrigins Wrapped"].
Proof.
  unfold fetchClusterData.
  destruct (negb (truthy (getXmlUrl input))); [discriminate|].
  unfold load.
  destruct (run_log_prefix (strategies encodeURIComponent (getXmlUrl input)) initLoop)
    as (n & Hn & Hlog & Hpos).
  remember (run initLoop (strategies encodeURIComponent (getXmlUrl input))) as L.
  intros H. exists n. split.
  - split; [apply Hpos; [reflexivity | discriminate] | exact Hn].
  - destruct (bind _ _); injection H as <-; cbn [tried]; rewrite Hlog; reflexivity.
Qed.

(** X8: the state left by a load is coherent: the selection is the first
    product, there is an error message exactly when there is no product,
    and every product kept has a price above 0 or a name of its own. *)
Theorem load_state_coherent (input : string) (st : appState) :
  fetchAll input = Some st ->
  selectedProduct st = hd_error (products st)
  /\ (errorMsg st = None <-> products st <> [])
  /\ Forall (fun p => keep p = true) (products st).
Proof.
  unfold fetchClusterData.
  destruct (negb (truthy (getXmlUrl input))); [discriminate|].
  unfold load.
  remember (run initLoop (strategies encodeURIComponent (getXmlUrl input))) as L.
  intros H.
  destruct (bind _ _) as [ps|e] eqn:E; injection H as <-;
    cbn [products selectedProduct errorMsg].
  - unfold bind in E. destruct (checkText _) as [xml|]; [|discriminate].
    unfold normalize in E. apply normalizeDoc_ok in E as [-> Hne].
    repeat split; try discriminate; try (intros _; exact Hne).
    apply Forall_forall. intros p Hp. unfold validProducts in Hp.
    now apply filter_In in Hp.
  - repeat split; try discriminate; try constructor. intros N. now elim N.
Qed.

(** X9: when no strategy hands over a body (rejected request, response
    that is not ok, empty text, undecodable or empty envelope), all three
    are attempted in order and the load ends with the could-not-fetch
    message and no product. *)
Theorem all_strategies_fail (input : string) :
  truthy (getXmlUrl input) = true ->
  Forall (fun s => Obs.yieldsBody fetch s = false)
         (strategies encodeURIComponent (getXmlUrl input)) ->
  fetchAll input
  = Some {| products := []; selectedProduct := None;
            errorMsg := Some msgNoXml;
            tried := ["AllOrigins Raw"; "CORSProxy"; "AllOrigins Wrapped"] |}.
Proof.
  intros Hurl Hall. unfold fetchClusterData. rewrite Hurl. cbn [negb].
  unfold load.
  pose proof (run_no_body _ initLoop eq_refl Hall) as Hno.
  destruct (tryStrategies_app fetch _ initLoop [] Hno) as [_ Hlog].
  unfold checkText. rewrite Hno. cbn [negb bind messageOf].
  rewrite Hlog. reflexivity.
Qed.

(** X10: the first strategy that hands over a non-empty text without HTML
    marker decides: its text is what gets normalised, the strategies after
    it are not attempted, and the outcome of the load is the outcome of
    normalising that text. *)
Theorem first_body_is_normalised (input : string) (pre post : list strategy)
    (s : strategy) (res : response) (body : string) :
  truthy (getXmlUrl input) = true ->
  strategies encodeURIComponent (getXmlUrl input) = (pre ++ s :: post)%list ->
  Forall (fun s' => Obs.yieldsBody fetch s' = false) pre ->
  fetch (url s) = Resolved res ->
  ok res = true ->
  (if isWrapped s then contents res = Some (VString body) else text res = body) ->
  truthy body = true ->
  isHtml body = false ->
  fetchAll input
  = Some match normalize encodeURIComponent randomId parseFromString body with
         | Ok ps =>
             {| products := ps; selectedProduct := hd_error ps; errorMsg := None;
                tried := (map sname pre ++ [sname s])%list |}
         | Throw e =>
             {| products := []; selectedProduct := None;
                errorMsg := Some (messageOf e);
                tried := (map sname pre ++ [sname s])%list |}
         end.
Proof.
  intros Hurl Hs Hpre Hf Hok Hbody Ht Hhtml.
  pose proof (run_no_body pre initLoop eq_refl Hpre) as Hno.
  unfold fetchClusterData. rewrite Hurl. cbn [negb].
  unfold load. rewrite Hs.
  destruct (tryStrategies_app fetch pre initLoop (s :: post) Hno) as [-> Hlog].
  cbn [tryStrategies]. rewrite Hno.
  assert (Hst : attempt fetch (run initLoop pre) s
                = {| xmlText := VString body;
                     lastError := lastError (run initLoop pre);
                     successSource := sname s;
                     attempted := (map sname pre ++ [sname s])%list |}).
  { unfold attempt. rewrite Hf, Hok, Hlog. cbn [attempted initLoop app].
    destruct (isWrapped s); rewrite Hbody; reflexivity. }
  rewrite Hst, tryStrategies_break by (cbn; exact Ht).
  unfold checkText. cbn [xmlText vtruthy successSource attempted].
  rewrite Ht, Hhtml. cbn [negb bind].
  destruct (normalize _ _ _ body); reflexivity.
Qed.

(** X11: a blank input (empty or white space only) is the only input on
    which the load does nothing at all. *)
Theorem blank_input_is_ignored (input : string) :
  fetchAll input = None <-> Str.trim input = "".
Proof.
  unfold fetchClusterData. rewrite getXmlUrl_truthy.
  destruct (Str.trim input) as [|c r]; cbn [truthy negb].
  - split; reflexivity.
  - destruct (load _ _ _ _ _). split; discriminate.
Qed.

End MoreFetchFacts.

(** ** Field mapping, continued *)

(** [parseInt] on a non-empty run of digits is its value. *)
Lemma parseInt_digits (m : string) :
  truthy m = true -> Str.forallb Str.is_digit m = true ->
  parseInt m = Int (Str.digitsValue 0 m).
Proof.
  destruct m as [|c r]; [discriminate|]. intros _ H.
  pose proof H as Hall. cbn [Str.forallb] in H. apply andb_prop in H as [Hc Hr].
  unfold parseInt. rewrite (trimStart_digit c r Hc).
  assert (Hbody : match String c r with
                  | String "-" r0 => (true, r0)
                  | String "+" r0 => (false, r0)
                  | _ => (false, String c r)
                  end = (false, String c r)).
  { destruct c as [[] [] [] [] [] [] [] []]; try reflexivity; discriminate Hc. }
  rewrite Hbody, (spanDigits_all _ Hall). reflexivity.
Qed.

Lemma firstDigitRun_digits (s m : string) :
  Str.firstDigitRun s = Some m ->
  truthy m = true /\ Str.forallb Str.is_digit m = true.
Proof.
  revert m. induction s as [|c r IH]; intros m; cbn [Str.firstDigitRun];
    [discriminate|].
  destruct (Str.is_digit c) eqn:E; [|apply IH].
  intros H. injection H as <-. split.
  - cbn [Str.spanDigits]. rewrite E. destruct (Str.spanDigits r). reflexivity.
  - exact (spanDigits_digits (String c r)).
Qed.

Section MoreMappingFacts.

Variable encodeURIComponent : string -> string.
Variable randomId : nat -> string.

Local Abbreviation mapOne := (mapProduct encodeURIComponent randomId).
Local Abbreviation mapAll := (mapProducts encodeURIComponent randomId).

(** X13: in a feed where no element carries an id, the products receive
    the random identifiers in the order they are drawn, one each, while
    all of them share the sku N/A. *)
Theorem idless_feed_ids (items : list node) (k : nat) :
  Forall (fun it => Obs.idless it = true) items ->
  map id (mapAll items k) = map randomId (seq k (length items))
  /\ Forall (fun p => sku p = "N/A") (mapAll items k).
Proof.
  revert k. induction items as [|it rest IH]; intros k H; [split; constructor|].
  inversion H as [|? ? Hit Hrest]; subst.
  unfold Obs.idless in Hit. apply negb_true_iff in Hit.
  assert (Hk : snd (mapOne it k) = S k)
    by (unfold mapProduct; cbn [snd]; now rewrite Hit).
  assert (Hid : id (fst (mapOne it k)) = randomId k)
    by (unfold mapProduct; cbn [fst id]; now rewrite Hit).
  assert (Hsku : sku (fst (mapOne it k)) = "N/A")
    by (unfold mapProduct, or_else; cbn [fst sku]; now rewrite Hit).
  cbn [mapProducts]. destruct (mapOne it k) as [p k'] eqn:E.
  cbn [fst snd] in Hk, Hid, Hsku. subst k'.
  destruct (IH (S k) Hrest) as [H1 H2].
  cbn [length seq map]. rewrite H1, Hid. split; [reflexivity|].
  constructor; [exact Hsku | exact H2].
Qed.

(** X14: a mapped product never has an empty name or an empty sku, so an
    export is never named after an empty sku. *)
Theorem name_and_sku_never_empty (item : node) (k : nat) :
  truthy (name (fst (mapOne item k))) = true
  /\ truthy (sku (fst (mapOne item k))) = true.
Proof.
  cbn [fst name sku mapProduct]. unfold or_else.
  destruct (truthy (titleOf item)) eqn:E1, (truthy (idOf item)) eqn:E2;
    rewrite ?E1, ?E2; split; reflexivity.
Qed.

(** X15: when the element has no installment element (plain or under the
    g prefix) and the first digit run of its flat field, if any, spells at
    most 2^53, the installment count is that whole number, never negative
    and never [NaN]; it is 1 when the field is missing or holds no
    digit. *)
Theorem flat_installments_nonnegative (item : node) :
  firstByTagName item "g:installment" = None ->
  firstByTagName item "installment" = None ->
  (forall m, Str.firstDigitRun (getText item ["installment"; "installments"]) = Some m ->
             Str.digitsValue 0 m <= Obs.maxExact) ->
  exists n, installmentsOf item = Int n /\ 0 <= n <= Obs.maxExact
            /\ (forall m, Str.firstDigitRun
                            (getText item ["installment"; "installments"]) = Some m ->
                          n = Str.digitsValue 0 m)
            /\ (Str.firstDigitRun (getText item ["installment"; "installments"]) = None
                -> n = 1).
Proof.
  intros H1 H2 Hb. unfold installmentsOf. rewrite H1, H2.
  destruct (truthy (getText item ["installment"; "installments"])) eqn:Et.
  - destruct (Str.firstDigitRun _) as [m|] eqn:Em.
    + destruct (firstDigitRun_digits _ _ Em) as [Hm1 Hm2].
      rewrite (parseInt_digits m Hm1 Hm2).
      exists (Str.digitsValue 0 m). repeat split.
      * apply digitsValue_nonneg; [lia | exact Hm2].
      * now apply Hb.
      * intros m' E. now injection E as <-.
      * discriminate.
    + exists 1. repeat split; try discriminate; unfold Obs.maxExact; lia.
  - apply truthy_empty in Et. rewrite Et. cbn [Str.firstDigitRun].
    exists 1. repeat split; try discriminate; unfold Obs.maxExact; lia.
Qed.

(** X16: when the element has an installment element without text under
    months, the count stays at 1: the flat text of that element is not
    consulted. *)
Theorem installment_without_months (item n : node) :
  (firstByTagName item "g:installment" = Some n
   \/ (firstByTagName item "g:installment" = None
       /\ firstByTagName item "installment" = Some n)) ->
  optText n "g:months" = "" ->
  optText n "months" = "" ->
  installmentsOf item = Int 1.
Proof.
  intros [H | [H1 H2]] Hg Hm; unfold installmentsOf;
    rewrite ?H, ?H1, ?H2, Hg, Hm; reflexivity.
Qed.

(** X17: a product flagged for free shipping has a numeric price above 0
    and therefore always passes the filter. *)
Theorem freeShipping_implies_kept (item : node) (k : nat) :
  freeShipping (fst (mapOne item k)) = true ->
  gt (price (fst (mapOne item k))) (Num 0) = true
  /\ price (fst (mapOne item k)) <> NaN
  /\ keep (fst (mapOne item k)) = true.
Proof.
  cbn [fst freeShipping price mapProduct]. unfold keep. cbn [price name].
  destruct (priceOf item) as [|q]; [discriminate|].
  unfold gt, ofZ. intros E.
  assert (Hq : negb (Qle_bool q 0) = true).
  { apply negb_true_iff. apply negb_true_iff in E.
    destruct (Qle_bool q 0) eqn:E0; [|reflexivity].
    apply Qle_bool_iff in E0.
    assert (Hle : (q <= inject_Z 100000)%Q).
    { eapply Qle_trans; [exact E0 | now apply Qle_bool_iff]. }
    apply Qle_bool_iff in Hle. congruence. }
  rewrite Hq. repeat split. discriminate.
Qed.

End MoreMappingFacts.

(** ** Layout, continued *)

Lemma downloads_app (a b : list Canvas.op) :
  Batch.downloads (a ++ b) = (Batch.downloads a ++ Batch.downloads b)%list.
Proof. unfold Batch.downloads. apply flat_map_app. Qed.

Section MoreDrawFacts.

Import Canvas.

Variable formatPrice : jsnum -> string.
Variable cfg : RenderConfig.

Local Abbreviation draw := (drawProduct formatPrice cfg).

Ltac all_renders p img dl :=
  unfold drawProduct, badges, priceBlock, bankBadge, installmentsBadge,
    pickupBadge, productImage, downloadTrigger;
  destruct img, dl;
  destruct (showPrice cfg), (showBadges cfg);
  destruct (truthy (promoTextOf cfg p)), (pickup p) as [[|]|];
  destruct (igt (installments p) 1).

(** A render without download trigger hands nothing to the download
    link; with it, exactly the file of the product. *)
Lemma downloads_draw (p : Product) (img : imageLoad) (dl : bool) :
  Batch.downloads (draw p img dl) = if dl then [fileName p] else [].
Proof. all_renders p img dl; lazy; reflexivity. Qed.

(** X18: an export paints exactly what the preview paints and then
    triggers one download, named after the sku; a preview never triggers
    a download. *)
Theorem export_is_preview_plus_download (p : Product) (img : imageLoad) :
  draw p img true = (draw p img false ++ [Download ("pardo_" ++ sku p ++ ".jpg")])%list
  /\ Batch.downloads (draw p img false) = []
  /\ Batch.downloads (draw p img true) = ["pardo_" ++ sku p ++ ".jpg"].
Proof.
  split; [|split; apply downloads_draw].
  unfold drawProduct, downloadTrigger, fileName.
  rewrite app_nil_r, <- !app_assoc. reflexivity.
Qed.

(** X19: the picture depends on the product only through its price,
    installments, promotion text, pickup flag and (for the file name) sku:
    name, id, list price, free-shipping flag and image address of two
    products may differ without changing a single canvas call. *)
Theorem render_uses_five_fields (p q : Product) (img : imageLoad) (dl : bool) :
  price p = price q ->
  installments p = installments q ->
  bankPromo p = bankPromo q ->
  pickup p = pickup q ->
  sku p = sku q ->
  draw p img dl = draw q img dl.
Proof.
  intros H1 H2 H3 H4 H5.
  unfold drawProduct, badges, priceBlock, bankBadge, installmentsBadge,
    pickupBadge, downloadTrigger, fileName, promoTextOf.
  now rewrite H1, H2, H3, H4, H5.
Qed.

(** X20: in every render the badges painted (rounded rectangles that are
    filled) are as many as the badge conditions that hold (promotion text,
    more than one installment, pickup; none when badges are disabled), each
    lies inside the safe area between the frame bars, and no two of them
    overlap. *)
Theorem badges_inside_safe_area (p : Product) (img : imageLoad) (dl : bool) :
  length (Obs.filledRects (Obs.marks (draw p img dl)))
  = (if showBadges cfg
     then (if truthy (promoTextOf cfg p) then 1 else 0)
          + (if igt (installments p) 1 then 1 else 0)
          + (match pickup p with Some true => 1 | _ => 0 end)
     else 0)%nat
  /\ List.forallb Obs.insideSafeArea (Obs.filledRects (Obs.marks (draw p img dl))) = true
  /\ pairwiseDisjoint (Obs.filledRects (Obs.marks (draw p img dl))) = true.
Proof. repeat split; all_renders p img dl; lazy; reflexivity. Qed.

(** X21: the price is painted at (500, 840) exactly when the price is
    enabled, and the breakdown line at (500, 730) exactly when moreover
    the installments exceed 1: for a whole count N up to 2^53 it reads
    Hasta N x the formatted price divided by N. *)
Theorem price_block_texts (p : Product) (n : Z) (img : imageLoad) (dl : bool) :
  installments p = Int n ->
  n <= Obs.maxExact ->
  textsAt 500 840 (draw p img dl)
  = (if showPrice cfg then [formatPrice (price p)] else [])
  /\ textsAt 500 730 (draw p img dl)
    = (if showPrice cfg && (1 <? n)
       then ["Hasta " ++ itoString (Int n) ++ "x "
             ++ formatPrice (div (price p) (Int n))
             ++ " cuotas sin interés"]
       else []).
Proof.
  intros Hn _.
  repeat split;
    unfold drawProduct, badges, priceBlock, bankBadge, installmentsBadge,
      pickupBadge, productImage, downloadTrigger;
    rewrite Hn; cbn [igt itoString];
    destruct img, dl; destruct (showPrice cfg), (showBadges cfg);
    destruct (truthy (promoTextOf cfg p)), (pickup p) as [[|]|];
    destruct (1 <? n); lazy; reflexivity.
Qed.

(** X22: whatever the flags, the product and the fate of the photo, the
    four frame bars are filled and both brand texts are painted once. *)
Theorem frame_always_painted (p : Product) (img : imageLoad) (dl : bool) :
  textsAt 500 65 (draw p img dl) = ["PARDO"]
  /\ textsAt 500 935 (draw p img dl) = ["WWW.PARDO.COM.AR"]
  /\ incl [FillRect 0 0 1000 130; FillRect 0 870 1000 130;
           FillRect 0 0 30 1000; FillRect 970 0 30 1000]
          (draw p img dl).
Proof.
  split; [|split]; [all_renders p img dl; lazy; reflexivity ..|].
  unfold drawProduct. intros o Ho.
  apply in_or_app; right. apply in_or_app; right.
  apply in_or_app; right. apply in_or_app; right.
  apply in_or_app; left. unfold frame.
  cbn in Ho. cbn. intuition auto.
Qed.

(** X23: the path traced by the rounded-rectangle helper stays inside the
    rectangle, control points included, as long as the radius is between 0
    and both sides; it ends where it starts. *)
Theorem roundRect_stays_in_box (x y w h r : Z) :
  0 <= r -> r <= w -> r <= h ->
  List.forallb (Obs.inBox x y w h) (flat_map Obs.pathPoints (roundRect x y w h r)) = true
  /\ hd_error (flat_map Obs.pathPoints (roundRect x y w h r)) = Some (x + r, y)
  /\ last (flat_map Obs.pathPoints (roundRect x y w h r)) (0, 0) = (x + r, y).
Proof.
  intros H0 Hw Hh. split; [|split; reflexivity].
  unfold roundRect. cbn [flat_map Obs.pathPoints app List.forallb].
  unfold Obs.inBox. cbn [fst snd].
  repeat (apply andb_true_intro; split); try reflexivity; apply Z.leb_le; lia.
Qed.

End MoreDrawFacts.

(** ** From the feed to the picture *)

Section FeedToPicture.

Import Canvas.

Variable encodeURIComponent : string -> string.
Variable randomId : nat -> string.
Variable formatPrice : jsnum -> string.
Variable cfg : RenderConfig.

Local Abbreviation mapOne := (mapProduct encodeURIComponent randomId).
Local Abbreviation draw := (drawProduct formatPrice cfg).

(** X24: a product that comes from the feed never carries a promotion text
    of its own and always has the pickup flag: its bank badge is filled
    and headed 10% OFF exactly when badges are enabled and the configured
    bank text is not empty, and its pickup pill is filled and labelled
    whenever badges are enabled, below the installment badge if the feed
    announced more than one installment. *)
Theorem feed_product_badges (item : node) (k : nat) (img : imageLoad) (dl : bool) :
  promoTextOf cfg (fst (mapOne item k)) = customBankText cfg
  /\ Obs.filledOf 280 80 (Obs.marks (draw (fst (mapOne item k)) img dl))
     = (if showBadges cfg && truthy (customBankText cfg)
        then [(COLORS.debitBadge, 30, 150, 10)] else [])
  /\ Obs.labelsAt 170 190 (Obs.marks (draw (fst (mapOne item k)) img dl))
     = (if showBadges cfg && truthy (customBankText cfg)
        then [("white", "900 36px Roboto", "10% OFF")] else [])
  /\ Obs.filledOf 260 40 (Obs.marks (draw (fst (mapOne item k)) img dl))
     = (if showBadges cfg
        then [(COLORS.pickupBadge, 710,
               if igt (installmentsOf item) 1 then 230 else 150, 20)]
        else [])
  /\ Obs.labelsAt 840 (if igt (installmentsOf item) 1 then 252 else 172)
       (Obs.marks (draw (fst (mapOne item k)) img dl))
     = (if showBadges cfg
        then [("#004488", "700 20px Roboto", "¡RETIRO GRATIS!")]
        else []).
Proof.
  assert (Hpick : pickup (fst (mapOne item k)) = Some true) by reflexivity.
  assert (Hpromo : promoTextOf cfg (fst (mapOne item k)) = customBankText cfg)
    by reflexivity.
  assert (Hinst : installments (fst (mapOne item k)) = installmentsOf item)
    by reflexivity.
  revert Hpick Hpromo Hinst. generalize (fst (mapOne item k)) as p.
  intros p Hpick Hpromo Hinst. split; [exact Hpromo|].
  repeat split;
    unfold drawProduct, badges, priceBlock, bankBadge, installmentsBadge,
      pickupBadge, productImage, downloadTrigger;
    rewrite Hpick, Hpromo, Hinst;
    destruct img, dl; destruct (showPrice cfg), (showBadges cfg);
    destruct (truthy (customBankText cfg)), (igt (installmentsOf item) 1);
    lazy; reflexivity.
Qed.

End FeedToPicture.

(** ** Batch export *)

Lemma exported_app (a b : list Batch.event) :
  Batch.exported (a ++ b) = (Batch.exported a ++ Batch.exported b)%list.
Proof. unfold Batch.exported. apply flat_map_app. Qed.

Lemma slept_app (a b : list Batch.event) :
  Batch.slept (a ++ b) = Batch.slept a + Batch.slept b.
Proof.
  unfold Batch.slept. induction a as [|e a IH]; cbn [app fold_right]; [lia|].
  destruct e; rewrite IH; lia.
Qed.

Lemma last_cons_default {A : Type} (l : list A) (a d d' : A) :
  last (a :: l) d = last (a :: l) d'.
Proof.
  revert a. induction l as [|b l IH]; intros a; [reflexivity|].
  change (last (b :: l) d = last (b :: l) d'). apply IH.
Qed.

Section BatchFacts.

Import Batch.

Variable encodeURIComponent : string -> string.
Variable randomId : nat -> string.
Variable formatPrice : jsnum -> string.
Variable cfg : Canvas.RenderConfig.
Variable loadImage : nat -> string -> Canvas.imageLoad.

Local Abbreviation step := (batchStep formatPrice cfg loadImage).
Local Abbreviation runBatch := (runBatchProcess formatPrice cfg loadImage).
Local Abbreviation mapAll := (mapProducts encodeURIComponent randomId).

Lemma batch_loop (products : list Product) :
  forall st,
    processing (fold_left step products st) = processing st
    /\ generatedCount (fold_left step products st)
       = (generatedCount st + length products)%nat
    /\ exported (log (fold_left step products st))
       = (exported (log st) ++ map Canvas.fileName products)%list
    /\ slept (log (fold_left step products st))
       = slept (log st) + 1100 * Z.of_nat (length products)
    /\ selectedProduct (fold_left step products st)
       = last (map Some products) (selectedProduct st).
Proof.
  induction products as [|p rest IH]; intros st; cbn [fold_left length map].
  - repeat split; [lia | now rewrite app_nil_r | lia].
  - destruct (IH (step st p)) as (H1 & H2 & H3 & H4 & H5).
    rewrite H1, H2, H3, H4, H5.
    unfold batchStep at 1 2 3 4. cbn [processing generatedCount log selectedProduct].
    rewrite exported_app, slept_app, <- app_assoc.
    unfold exported at 2. cbn [flat_map]. rewrite downloads_draw.
    repeat split; [lia | | ].
    + cbn [slept fold_right]. lia.
    + destruct rest as [|q rest]; [reflexivity|].
      cbn [map].
      transitivity (last (Some q :: map Some rest) (selectedProduct st));
        [apply last_cons_default | reflexivity].
Qed.

(** X25: a batch over a list of products exports one file per product,
    named after its sku, in list order; it ends with the processing flag
    down, a count equal to the number of products, the last product
    selected, and 1100 ms of timer waits per product.  Without canvas
    nothing happens. *)
Theorem batch_exports_each_product (products : list Product) (st : batchState) :
  processing (runBatch true products st) = false
  /\ generatedCount (runBatch true products st) = length products
  /\ exported (log (runBatch true products st))
     = (exported (log st) ++ map (fun p => ("pardo_" ++ sku p ++ ".jpg")%string) products)%list
  /\ slept (log (runBatch true products st))
     = slept (log st) + 1100 * Z.of_nat (length products)
  /\ selectedProduct (runBatch true products st)
     = last (map Some products) (selectedProduct st)
  /\ runBatch false products st = st.
Proof.
  unfold runBatchProcess. cbn [negb processing generatedCount log selectedProduct].
  match goal with
  | |- context [fold_left step products ?s] =>
      destruct (batch_loop products s) as (H1 & H2 & H3 & H4 & H5)
  end.
  cbn [processing generatedCount log selectedProduct] in *.
  rewrite exported_app, slept_app, H2, H3, H4, H5.
  cbn. rewrite app_nil_r. repeat split; lia.
Qed.

Lemma idless_fileNames (items : list node) :
  forall k, Forall (fun it => Obs.idless it = true) items ->
            Forall (fun p => Canvas.fileName p = "pardo_N/A.jpg") (mapAll items k).
Proof.
  induction items as [|it rest IH]; intros k H; [constructor|].
  inversion H as [|? ? Hit Hrest]; subst.
  unfold Obs.idless in Hit. apply negb_true_iff in Hit.
  assert (Hsku : Canvas.fileName (fst (mapProduct encodeURIComponent randomId it k))
                 = "pardo_N/A.jpg")
    by (unfold Canvas.fileName, mapProduct, or_else; cbn [fst sku]; now rewrite Hit).
  cbn [mapProducts]. destruct (mapProduct encodeURIComponent randomId it k) as [p k'].
  cbn [fst] in Hsku. constructor; [exact Hsku | now apply IH].
Qed.

Lemma map_constant {A B : Type} (f : A -> B) (c : B) (l : list A) :
  Forall (fun x => f x = c) l -> map f l = repeat c (length l).
Proof.
  induction 1 as [|x l Hx _ IH]; [reflexivity|].
  cbn [map length repeat]. now rewrite Hx, IH.
Qed.

(** X26: when a feed in which no element carries an id has been loaded,
    exporting the loaded products writes one file per product, all under
    the one name pardo_N/A.jpg. *)
Theorem batch_of_idless_feed_collides (doc : node) (ps : list Product) :
  Fetch.normalizeDoc encodeURIComponent randomId doc = Fetch.Ok ps ->
  Forall (fun it => Obs.idless it = true) (Fetch.findItems doc) ->
  exported (log (runBatch true ps idle)) = repeat "pardo_N/A.jpg" (length ps).
Proof.
  intros Hok H. apply normalizeDoc_ok in Hok as [-> _].
  unfold runBatchProcess. cbn [negb processing generatedCount log selectedProduct].
  match goal with
  | |- context [fold_left step ?l ?s] =>
      destruct (batch_loop l s) as (_ & _ & H3 & _)
  end.
  rewrite exported_app, H3. cbn [log idle exported flat_map app].
  rewrite app_nil_r. apply map_constant.
  apply Forall_forall. intros p Hp.
  unfold Fetch.validProducts in Hp. apply filter_In in Hp as [Hp _].
  pose proof (idless_fileNames (Fetch.findItems doc) 0 H) as Hall.
  rewrite Forall_forall in Hall. now apply Hall.
Qed.

End BatchFacts.

(** ** The further properties on sample inputs *)

Module OnMoreSamples.

Import Samples MoreSamples Fetch Canvas.

Lemma parsePrice_digits_in_noise_witness :
  parsePrice "$ 1500 ARS" = ofZ 1500.
Proof.
  apply (parsePrice_digits_in_noise "$ " "1500" " ARS"); try reflexivity.
  vm_compute. discriminate.
Defined.

Lemma parsePrice_second_point_cut_witness :
  parsePrice "1.234.567" = parsePrice "1.234"
  /\ parsePrice "1.234,567" = parsePrice "1.234".
Proof.
  exact (parsePrice_second_point_cut "1" "234" "567" eq_refl eq_refl).
Defined.

Lemma parsePrice_without_digit_witness : parsePrice "consultar" = NaN.
Proof.
  exact (parsePrice_without_digit "consultar" eq_refl eq_refl).
Defined.

Lemma parsePrice_ignores_other_chars_witness :
  parsePrice "-100" = parsePrice "100".
Proof.
  exact (parsePrice_ignores_other_chars "-100" eq_refl).
Defined.

Lemma tried_is_initial_segment_witness :
  exists n, (1 <= n <= 3)%nat
            /\ tried downState
               = firstn n ["AllOrigins Raw"; "CORSProxy"; "AllOrigins Wrapped"].
Proof.
  exact (tried_is_initial_segment enc rnd netDown parseAny feedUrl downState eq_refl).
Defined.

Lemma load_state_coherent_witness :
  selectedProduct servedState = hd_error (products servedState)
  /\ (errorMsg servedState = None <-> products servedState <> [])
  /\ Forall (fun p => keep p = true) (products servedState).
Proof.
  exact (load_state_coherent enc rnd netSecondServes parseAny feedUrl servedState
           eq_refl).
Defined.

Lemma all_strategies_fail_witness :
  fetchClusterData enc rnd netDown parseAny feedUrl = Some downState.
Proof.
  apply (all_strategies_fail enc rnd netDown parseAny feedUrl eq_refl).
  repeat constructor.
Defined.

Lemma first_body_is_normalised_witness :
  fetchClusterData enc rnd netSecondServes parseAny feedUrl
  = Some match normalize enc rnd parseAny "<rss/>" with
         | Ok ps =>
             {| products := ps; selectedProduct := hd_error ps; errorMsg := None;
                tried := ["AllOrigins Raw"; "CORSProxy"] |}
         | Throw e =>
             {| products := []; selectedProduct := None;
                errorMsg := Some (messageOf e);
                tried := ["AllOrigins Raw"; "CORSProxy"] |}
         end.
Proof.
  apply (first_body_is_normalised enc rnd netSecondServes parseAny feedUrl
           [relay1] [relay3] relay2 feedResponse "<rss/>"
           eq_refl eq_refl);
    [repeat constructor | reflexivity ..].
Defined.

Lemma idless_feed_ids_witness :
  map id (mapProducts enc rnd [itemListOnly; itemNoId2] 0) = ["0.0"; "0.1"]
  /\ Forall (fun p => sku p = "N/A") (mapProducts enc rnd [itemListOnly; itemNoId2] 0).
Proof.
  apply (idless_feed_ids enc rnd [itemListOnly; itemNoId2] 0).
  repeat constructor.
Defined.

Lemma flat_installments_nonnegative_witness :
  exists n, installmentsOf itemInstallmentsField = Int n /\ 0 <= n <= Obs.maxExact
            /\ (forall m, Str.firstDigitRun
                            (getText itemInstallmentsField ["installment"; "installments"])
                          = Some m -> n = Str.digitsValue 0 m)
            /\ (Str.firstDigitRun
                  (getText itemInstallmentsField ["installment"; "installments"]) = None
                -> n = 1).
Proof.
  apply (flat_installments_nonnegative itemInstallmentsField eq_refl eq_refl).
  intros m E. vm_compute in E. injection E as <-. vm_compute. discriminate.
Defined.

Lemma installment_without_months_witness :
  installmentsOf itemFlatInstallment = Int 1.
Proof.
  apply (installment_without_months itemFlatInstallment (el "installment" "12 cuotas")).
  - right. split; reflexivity.
  - reflexivity.
  - reflexivity.
Defined.

Lemma freeShipping_implies_kept_witness :
  gt (price (fst (mapProduct enc rnd itemListOnly 0))) (Num 0) = true
  /\ price (fst (mapProduct enc rnd itemListOnly 0)) <> NaN
  /\ keep (fst (mapProduct enc rnd itemListOnly 0)) = true.
Proof.
  exact (freeShipping_implies_kept enc rnd itemListOnly 0 eq_refl).
Defined.

Lemma render_uses_five_fields_witness :
  drawProduct fmt cfgAll singleProduct LoadFailed true
  = drawProduct fmt cfgAll singleProductRelabelled LoadFailed true.
Proof.
  exact (render_uses_five_fields fmt cfgAll singleProduct singleProductRelabelled
           LoadFailed true eq_refl eq_refl eq_refl eq_refl eq_refl).
Defined.

Lemma roundRect_stays_in_box_witness :
  List.forallb (Obs.inBox 710 150 260 70)
    (flat_map Obs.pathPoints (roundRect 710 150 260 70 10)) = true
  /\ hd_error (flat_map Obs.pathPoints (roundRect 710 150 260 70 10)) = Some (720, 150)
  /\ last (flat_map Obs.pathPoints (roundRect 710 150 260 70 10)) (0, 0) = (720, 150).
Proof.
  apply (roundRect_stays_in_box 710 150 260 70 10); lia.
Defined.

Lemma batch_of_idless_feed_collides_witness :
  length (findItems idlessFeed) = 3%nat
  /\ Batch.exported
       (Batch.log (Batch.runBatchProcess fmt cfgAll loadNone true idlessProducts
                     Batch.idle))
     = ["pardo_N/A.jpg"; "pardo_N/A.jpg"].
Proof.
  split; [reflexivity|].
  apply (batch_of_idless_feed_collides enc rnd fmt cfgAll loadNone idlessFeed
           idlessProducts eq_refl).
  repeat constructor.
Defined.

Lemma price_block_texts_witness :
  textsAt 500 840 (drawProduct fmt cfgAll visaProduct LoadFailed false) = ["$"]
  /\ textsAt 500 730 (drawProduct fmt cfgAll visaProduct LoadFailed false)
     = ["Hasta 12x $ cuotas sin interés"].
Proof.
  apply (price_block_texts fmt cfgAll visaProduct 12 LoadFailed false eq_refl).
  vm_compute. discriminate.
Defined.

End OnMoreSamples.

(** ** Field lookup and image address *)


Section LookupFacts.

Variable encodeURIComponent : string -> string.
Variable randomId : nat -> string.

(** X27: every text a field lookup returns is trimmed: trimming it again
    changes nothing, whichever tag variant supplied it. *)
Theorem getText_is_trimmed (item : node) (tags : list string) :
  Str.trim (getText item tags) = getText item tags.
Proof.
  assert (H : forall t s, textOf item t = Some s -> Str.trim s = s).
  { intros t s. unfold textOf. destruct (firstByTagName item t) as [el|]; [|discriminate].
    destruct (truthy (textContent el)); [|discriminate].
    intros E. injection E as <-. apply trim_idem. }
  induction tags as [|t rest IH]; cbn [getText]; [reflexivity|].
  destruct (textOf item t) eqn:E1; [now apply (H t)|].
  destruct (textOf item ("g:" ++ t)) eqn:E2; [now apply (H ("g:" ++ t))|].
  destruct (textOf item ("ns:" ++ t)) eqn:E3; [now apply (H ("ns:" ++ t))|].
  exact IH.
Qed.


End LookupFacts.

(** ** Invariants of normalisation *)

(** [parseInt] reads the digit run that follows the leading blanks. *)
Lemma parseInt_leading (t : string) :
  truthy (fst (Str.spanDigits (Str.trimStart t))) = true ->
  parseInt t = Int (Str.digitsValue 0 (fst (Str.spanDigits (Str.trimStart t)))).
Proof.
  unfold parseInt. destruct (Str.trimStart t) as [|c r]; [discriminate|].
  intros H.
  assert (Hc : Str.is_digit c = true).
  { cbn [Str.spanDigits] in H. destruct (Str.is_digit c); [reflexivity|discriminate]. }
  assert (Hbody : match String c r with
                  | String "-" r0 => (true, r0)
                  | String "+" r0 => (false, r0)
                  | _ => (false, String c r)
                  end = (false, String c r)).
  { destruct c as [[] [] [] [] [] [] [] []]; try reflexivity; discriminate Hc. }
  rewrite Hbody.
  destruct (fst (Str.spanDigits (String c r))); [discriminate | reflexivity].
Qed.

(** A cleaned text that starts with a digit parses to a number. *)
Lemma parseFloat_digit_head (s : string) :
  Obs.startsWithDigit s = true -> parseFloat s <> NaN.
Proof.
  destruct s as [|c r]; [discriminate|]. cbn [Obs.startsWithDigit]. intros Hc.
  unfold parseFloat. cbn [Str.spanDigits]. rewrite Hc.
  destruct (Str.spanDigits r) as [d rest].
  destruct rest as [|c2 r2]; [discriminate|].
  destruct c2 as [[] [] [] [] [] [] [] []]; cbn [truthy negb andb]; discriminate.
Qed.

Lemma parsePrice_of_number (txt : string) :
  truthy txt = false \/ Obs.startsWithDigit (clean txt) = true ->
  ge (parsePrice txt) (Num 0) = true.
Proof.
  intros H. unfold parsePrice.
  destruct (truthy txt) eqn:Et; cbn [negb]; [|reflexivity].
  destruct H as [H|H]; [discriminate|].
  destruct (parseFloat_nonneg (clean txt)) as [E|E]; [|exact E].
  now apply parseFloat_digit_head in H.
Qed.

Section Invariants.

Import Fetch.

Variable encodeURIComponent : string -> string.
Variable randomId : nat -> string.

Local Abbreviation mapOne := (mapProduct encodeURIComponent randomId).
Local Abbreviation mapped := (mappedProducts encodeURIComponent randomId).
Local Abbreviation valid := (validProducts encodeURIComponent randomId).
Local Abbreviation normalizeDoc := (normalizeDoc encodeURIComponent randomId).

(** C4 (as amended): a feed that parses and has a usable product element
    normalises to a non-empty list.  Each product in it is mapped from one
    of the located elements; its price is at least 0 whenever the price
    text used is empty or starts, once cleaned, with a digit; its
    installments are 1 when the element has no installment text; and when
    that text starts, after leading blanks, with a digit run spelling at
    most 2^53, the installments are the number spelt, hence at least 1
    unless the run spells 0. *)
Theorem normalize_nonempty_invariants (doc item : node) :
  getElementsByTagName doc "parsererror" = [] ->
  In item (findItems doc) ->
  validElement encodeURIComponent randomId item = true ->
  exists ps,
    normalizeDoc doc = Ok ps
    /\ ps <> []
    /\ Forall (fun p =>
          exists it k,
            In it (findItems doc)
            /\ p = fst (mapOne it k)
            /\ (truthy (Obs.priceText it) = false
                \/ Obs.startsWithDigit (clean (Obs.priceText it)) = true ->
                ge (price p) (Num 0) = true)
            /\ (installmentText it = None -> installments p = Int 1)
            /\ (forall t,
                  installmentText it = Some t ->
                  truthy (fst (Str.spanDigits (Str.trimStart t))) = true ->
                  Str.digitsValue 0 (fst (Str.spanDigits (Str.trimStart t)))
                  <= Obs.maxExact ->
                  installments p
                  = Int (Str.digitsValue 0 (fst (Str.spanDigits (Str.trimStart t))))
                  /\ ige (installments p) 1
                     = negb (Str.digitsValue 0 (fst (Str.spanDigits (Str.trimStart t)))
                             =? 0))) ps.
Proof.
  intros Hp Hin Hv.
  assert (Hi : findItems doc <> []) by (intros E; rewrite E in Hin; destruct Hin).
  destruct (mapProducts_In encodeURIComponent randomId (findItems doc) 0 item Hin)
    as (k' & Hmapped).
  assert (Hvalid : In (fst (mapOne item k')) (valid (findItems doc))).
  { unfold validProducts. apply filter_In. split; [exact Hmapped | exact Hv]. }
  exists (valid (findItems doc)). split; [|split].
  - rewrite (normalizeDoc_items _ _ doc Hp Hi).
    destruct (validProducts _ _ _); [destruct Hvalid | reflexivity].
  - intros E. rewrite E in Hvalid. destruct Hvalid.
  - apply Forall_forall. intros p Hpin.
    unfold validProducts in Hpin. apply filter_In in Hpin as [Hpin _].
    apply In_mapProducts in Hpin as (it & k2 & Hit & ->).
    exists it, k2. split; [exact Hit|]. split; [reflexivity|].
    cbn [fst price installments mapProduct]. split; [|split].
    + intros H. unfold priceOf. unfold Obs.priceText in H.
      destruct (truthy (rawSalePriceOf it)); now apply parsePrice_of_number.
    + intros H. now rewrite installmentsOf_text, H.
    + intros t Ht Hd _. rewrite installmentsOf_text, Ht, (parseInt_leading t Hd).
      split; [reflexivity|]. cbn [ige].
      pose proof (digitsValue_nonneg _ 0 ltac:(lia)
                    (spanDigits_digits (Str.trimStart t))) as Hnn.
      destruct (Str.digitsValue 0 (fst (Str.spanDigits (Str.trimStart t))) =? 0) eqn:E.
      * apply Z.eqb_eq in E. rewrite E. reflexivity.
      * apply Z.eqb_neq in E. cbn [negb]. apply Z.leb_le. lia.
Qed.

(** C7: as long as the mapped prices are numbers, the filter removes
    exactly the records whose price is at most 0 and whose name is the Sin
    Nombre sentinel: those with a price above 0 or another name are kept,
    in order; when nothing is left the load fails with the nothing-valid
    error. *)
Theorem filter_drops_nonpositive_unnamed (doc : node) :
  getElementsByTagName doc "parsererror" = [] ->
  findItems doc <> [] ->
  Forall (fun p => price p <> NaN) (mapped (findItems doc)) ->
  valid (findItems doc)
    = List.filter (fun p => negb (le (price p) (Num 0) && String.eqb (name p) sinNombre))
                  (mapped (findItems doc))
  /\ (forall p, In p (valid (findItems doc)) <->
                In p (mapped (findItems doc))
                /\ ~ (le (price p) (Num 0) = true /\ name p = sinNombre))
  /\ (forall p, In p (valid (findItems doc)) <->
                In p (mapped (findItems doc))
                /\ (gt (price p) (Num 0) = true \/ name p <> sinNombre))
  /\ normalizeDoc doc =
       match valid (findItems doc) with
       | [] => Throw (Error msgNoValid)
       | ps => Ok ps
       end.
Proof.
  intros Hp Hi Hnum.
  assert (Hkeep : forall p, In p (mapped (findItems doc)) ->
            keep p = negb (le (price p) (Num 0) && String.eqb (name p) sinNombre)).
  { intros p Hin. rewrite Forall_forall in Hnum. specialize (Hnum p Hin).
    unfold keep, gt, le. destruct (price p) as [|q]; [congruence|].
    destruct (Qle_bool q 0), (String.eqb (name p) sinNombre); reflexivity. }
  split; [|split; [|split]].
  - unfold validProducts. apply filter_ext_in. exact Hkeep.
  - intros p. unfold validProducts. rewrite filter_In. split.
    + intros [Hin Hk]. split; [exact Hin|]. rewrite (Hkeep p Hin) in Hk.
      intros [H1 H2]. apply String.eqb_eq in H2. rewrite H1, H2 in Hk. discriminate.
    + intros [Hin Hn]. split; [exact Hin|]. rewrite (Hkeep p Hin).
      destruct (le (price p) (Num 0)) eqn:E1; [|reflexivity].
      destruct (String.eqb (name p) sinNombre) eqn:E2; [|reflexivity].
      apply String.eqb_eq in E2. elim Hn. now split.
  - intros p. unfold validProducts. rewrite filter_In. unfold keep.
    rewrite orb_true_iff, negb_true_iff, <- not_true_iff_false, String.eqb_eq.
    reflexivity.
  - now apply normalizeDoc_items.
Qed.

End Invariants.

(** ** Badges and export *)

Section BadgeFacts.

Import Canvas.

Variable encodeURIComponent : string -> string.
Variable randomId : nat -> string.
Variable formatPrice : jsnum -> string.
Variable cfg : RenderConfig.

Local Abbreviation mapOne := (mapProduct encodeURIComponent randomId).
Local Abbreviation draw := (drawProduct formatPrice cfg).

(** C9: with badges enabled and pickup set, the pickup pill is painted: a
    260 x 40 rounded rectangle of radius 20 filled in the pickup colour at
    x = 710 and labelled RETIRO GRATIS at its centre.  It sits at y = 230,
    under the installment badge, when there are more than one installments,
    and at the badge slot y = 150 otherwise; the slot offset advances by 80
    exactly when the 70 high installment badge is filled, and no two
    painted badges overlap. *)
Theorem pickup_badge_slot (p : Product) (img : imageLoad) (dl : bool) :
  showBadges cfg = true ->
  pickup p = Some true ->
  Obs.filledOf 260 40 (Obs.marks (draw p img dl))
    = [(COLORS.pickupBadge, 710, if igt (installments p) 1 then 230 else 150, 20)]
  /\ Obs.labelsAt 840 (if igt (installments p) 1 then 252 else 172)
       (Obs.marks (draw p img dl))
    = [("#004488", "700 20px Roboto", "¡RETIRO GRATIS!")]
  /\ Obs.filledOf 260 70 (Obs.marks (draw p img dl))
    = (if igt (installments p) 1 then [(COLORS.orangeBadge, 710, 150, 10)] else [])
  /\ (forall y, snd (installmentsBadge p y)
                = if igt (installments p) 1 then y + 80 else y)
  /\ (forall y, Obs.filledOf 260 70 (Obs.marks (fst (installmentsBadge p y)))
                = if igt (installments p) 1
                  then [(COLORS.orangeBadge, 710, y, 10)] else [])
  /\ pairwiseDisjoint (Obs.filledRects (Obs.marks (draw p img dl))) = true.
Proof.
  intros Hb Hp.
  destruct (igt (installments p) 1) eqn:E; repeat split; intros;
    unfold drawProduct, badges, priceBlock, bankBadge, installmentsBadge,
      pickupBadge, productImage, downloadTrigger;
    rewrite ?Hb, ?Hp, ?E;
    destruct img, dl; destruct (showPrice cfg);
    destruct (truthy (promoTextOf cfg p));
    lazy; try reflexivity.
Qed.

(** C10: an element without id/sku text gets the next random identifier
    as [id] and the literal N/A as [sku], and whatever the configuration
    and the photo, exporting its product triggers the download of
    pardo_N/A.jpg: the same file name for every such product. *)
Theorem idless_product_sku (item : node) (k : nat) (img : imageLoad) :
  idOf item = "" ->
  id (fst (mapOne item k)) = randomId k
  /\ snd (mapOne item k) = S k
  /\ sku (fst (mapOne item k)) = "N/A"
  /\ Batch.downloads (draw (fst (mapOne item k)) img true) = ["pardo_N/A.jpg"].
Proof.
  intros H. rewrite downloads_draw.
  unfold mapProduct, fileName. cbn [fst snd id sku]. rewrite H. repeat split.
Qed.

End BadgeFacts.

(** ** The revised invariants on sample inputs *)

Module OnFeedSamples.

Import Samples MoreSamples Fetch Canvas.

Lemma normalize_nonempty_invariants_witness :
  exists ps,
    normalizeDoc enc rnd (feedOf [itemListOnly]) = Ok ps
    /\ ps <> []
    /\ Forall (fun p =>
          exists it k,
            In it (findItems (feedOf [itemListOnly]))
            /\ p = fst (mapProduct enc rnd it k)
            /\ (truthy (Obs.priceText it) = false
                \/ Obs.startsWithDigit (clean (Obs.priceText it)) = true ->
                ge (price p) (Num 0) = true)
            /\ (installmentText it = None -> installments p = Int 1)
            /\ (forall t,
                  installmentText it = Some t ->
                  truthy (fst (Str.spanDigits (Str.trimStart t))) = true ->
                  Str.digitsValue 0 (fst (Str.spanDigits (Str.trimStart t)))
                  <= Obs.maxExact ->
                  installments p
                  = Int (Str.digitsValue 0 (fst (Str.spanDigits (Str.trimStart t))))
                  /\ ige (installments p) 1
                     = negb (Str.digitsValue 0 (fst (Str.spanDigits (Str.trimStart t)))
                             =? 0))) ps.
Proof.
  apply (normalize_nonempty_invariants enc rnd (feedOf [itemListOnly]) itemListOnly).
  - reflexivity.
  - left. reflexivity.
  - reflexivity.
Defined.

Lemma filter_drops_nonpositive_unnamed_witness :
  validProducts enc rnd (findItems idlessFeed)
  = [fst (mapProduct enc rnd itemListOnly 1); fst (mapProduct enc rnd itemNoId2 2)]
  /\ le (price (fst (mapProduct enc rnd itemBare 0))) (Num 0) = true
  /\ name (fst (mapProduct enc rnd itemBare 0)) = sinNombre
  /\ normalizeDoc enc rnd idlessFeed
     = Ok [fst (mapProduct enc rnd itemListOnly 1); fst (mapProduct enc rnd itemNoId2 2)].
Proof.
  assert (Hi : findItems idlessFeed <> []) by discriminate.
  assert (Hnum : Forall (fun p => price p <> NaN)
                   (mappedProducts enc rnd (findItems idlessFeed)))
    by (repeat constructor; discriminate).
  destruct (filter_drops_nonpositive_unnamed enc rnd idlessFeed eq_refl Hi Hnum)
    as (H1 & _ & _ & H4).
  split; [rewrite H1; reflexivity|].
  split; [reflexivity|]. split; [reflexivity|].
  rewrite H4. reflexivity.
Defined.

Lemma pickup_badge_slot_witness :
  Obs.filledOf 260 40 (Obs.marks (drawProduct fmt cfgAll visaProduct LoadFailed false))
    = [(COLORS.pickupBadge, 710, 230, 20)]
  /\ Obs.labelsAt 840 252 (Obs.marks (drawProduct fmt cfgAll visaProduct LoadFailed false))
    = [("#004488", "700 20px Roboto", "¡RETIRO GRATIS!")]
  /\ Obs.filledOf 260 40 (Obs.marks (drawProduct fmt cfgAll singleProduct LoadFailed false))
    = [(COLORS.pickupBadge, 710, 150, 20)]
  /\ pairwiseDisjoint
       (Obs.filledRects (Obs.marks (drawProduct fmt cfgAll visaProduct LoadFailed false)))
    = true.
Proof.
  destruct (pickup_badge_slot fmt cfgAll visaProduct LoadFailed false eq_refl eq_refl)
    as (H1 & H2 & _ & _ & _ & H6).
  destruct (pickup_badge_slot fmt cfgAll singleProduct LoadFailed false eq_refl eq_refl)
    as (H1' & _).
  repeat split; assumption.
Defined.

Lemma idless_product_sku_witness :
  idOf itemListOnly = ""
  /\ id (fst (mapProduct enc rnd itemListOnly 3)) = "0.3"
  /\ sku (fst (mapProduct enc rnd itemListOnly 3)) = "N/A"
  /\ Batch.downloads
       (drawProduct fmt cfgAll (fst (mapProduct enc rnd itemListOnly 3)) LoadFailed true)
     = ["pardo_N/A.jpg"].
Proof.
  split; [reflexivity|].
  destruct (idless_product_sku enc rnd fmt cfgAll itemListOnly 3 LoadFailed eq_refl)
    as (H1 & _ & H3 & H4).
  split; [exact H1 | split; [exact H3 | exact H4]].
Defined.

End OnFeedSamples.
